(** * PhenoTipsBot: the REST client and the CSV exporter

    A shallow embedding of [phenotipsbot.py] (class [PhenoTipsBot]) and of
    [export-csv.py] ([export_patients]).  Python strings are [string],
    [None] is the [None] of an option type, dictionaries are association
    lists that keep insertion order, exceptions are the [Raise] outcome of
    a state-and-error monad whose state is the chronological log of what
    the program did to the outside world. *)

From Stdlib Require Import List String Ascii ZArith Bool Lia.
Import ListNotations.
Open Scope string_scope.
Set Warnings "-register-all".

(** ** Python string primitives *)

Module PyStr.

(** [c in s] for a one-character needle. *)
Fixpoint contains (c : ascii) (s : string) : bool :=
  match s with
  | EmptyString => false
  | String d s' => if Ascii.eqb c d then true else contains c s'
  end.

(** [s.startswith(p)]. *)
Fixpoint startswith (p s : string) : bool :=
  match p with
  | EmptyString => true
  | String a p' =>
      match s with
      | EmptyString => false
      | String b s' => if Ascii.eqb a b then startswith p' s' else false
      end
  end.

(** [s[n:]] for a non-negative [n]. *)
Fixpoint slice_from (n : nat) (s : string) : string :=
  match n with
  | O => s
  | S n' =>
      match s with
      | EmptyString => EmptyString
      | String _ s' => slice_from n' s'
      end
  end.

(** [s.split(sep)] for a one-character separator: never empty. *)
Fixpoint split (sep : ascii) (s : string) : list string :=
  match s with
  | EmptyString => [EmptyString]
  | String c s' =>
      if Ascii.eqb c sep then EmptyString :: split sep s'
      else
        match split sep s' with
        | h :: t => String c h :: t
        | [] => [String c EmptyString]
        end
  end.

(** Python truth value of a string: the empty string is falsy. *)
Definition truthy (s : string) : bool :=
  match s with
  | EmptyString => false
  | String _ _ => true
  end.

End PyStr.

(** ** Qualified page names

    [qualify] and [unqualify] are the two helper functions at the end of
    class [PhenoTipsBot].  [unqualify] has no [return] on its last path, so
    it yields [None] there. *)

Definition qualify (pagename : string) (namespace : string) : string :=
  if negb (PyStr.truthy pagename) then pagename
  else
    let pagename :=
      if negb (PyStr.contains "." pagename) then namespace ++ "." ++ pagename
      else pagename in
    let pagename :=
      if negb (PyStr.contains ":" pagename) then "xwiki:" ++ pagename
      else pagename in
    pagename.

Definition unqualify (pagename : string) (namespace : string) : option string :=
  if PyStr.startswith ("xwiki:" ++ namespace ++ ".") pagename then
    Some (PyStr.slice_from
            (String.length "xwiki:" + String.length namespace + String.length ".")
            pagename)
  else if PyStr.startswith "xwiki:" pagename then
    Some (PyStr.slice_from (String.length "xwiki:") pagename)
  else None.

(** The default value of the [namespace] parameter of both functions. *)
Definition default_namespace : string := "XWiki".

(** A bare name: non-empty, with neither a dot nor a colon. *)
Definition bare_name (n : string) : Prop :=
  PyStr.truthy n = true /\ PyStr.contains "." n = false /\ PyStr.contains ":" n = false.

(** ** Python dictionaries

    A [dict] keeps its keys in the order of their first insertion, and
    assigning to a key that is already there keeps its place; this is the
    behaviour of [dict] and of [collections.OrderedDict] alike. *)

Definition dict (V : Type) : Type := list (string * V).

Fixpoint dict_get {V : Type} (k : string) (d : dict V) : option V :=
  match d with
  | [] => None
  | (k', v) :: d' => if String.eqb k k' then Some v else dict_get k d'
  end.

Fixpoint dict_set {V : Type} (k : string) (v : V) (d : dict V) : dict V :=
  match d with
  | [] => [(k, v)]
  | (k', v') :: d' =>
      if String.eqb k k' then (k, v) :: d' else (k', v') :: dict_set k v d'
  end.

Definition dict_keys {V : Type} (d : dict V) : list string := map fst d.

(** ** Exceptions and outcomes *)

Inductive exn : Type :=
| HTTPError (status : Z)
| ConnectionError
| TypeError (msg : string)
| KeyError (key : string)
| NameError (name : string)
| AttributeError (msg : string)
| ParseError
| JSONDecodeError.

Inductive outcome (A : Type) : Type :=
| Ok (a : A)
| Raise (e : exn).

Arguments Ok {A} a.
Arguments Raise {A} e.

(** ** What the [requests] library sends and receives *)

Inductive http_method : Type := GET | POST | PUT | DELETE.

Record request : Type := mkRequest {
  req_method : http_method;
  req_url : string;
  req_params : dict string;
  req_data : dict string;
  req_auth : string * string;
  req_verify : bool }.

Record response : Type := mkResponse {
  status_code : Z;
  headers : dict string;
  text : string }.

(** [r.headers] compares header names without regard to case. *)
Definition lower_ascii (c : ascii) : ascii :=
  let n := nat_of_ascii c in
  if Nat.leb 65 n && Nat.leb n 90 then ascii_of_nat (n + 32) else c.

Fixpoint lower (s : string) : string :=
  match s with
  | EmptyString => EmptyString
  | String c s' => String (lower_ascii c) (lower s')
  end.

Fixpoint header_get (name : string) (hs : dict string) : option string :=
  match hs with
  | [] => None
  | (k, v) :: hs' =>
      if String.eqb (lower name) (lower k) then Some v else header_get name hs'
  end.

(** ** XML elements, as [xml.etree.ElementTree] presents them *)

Inductive element : Type :=
| Element (tag : string) (attrib : dict string) (text : option string)
          (children : list element).

Definition el_tag (e : element) : string := let (t, _, _, _) := e in t.
Definition el_attrib (e : element) : dict string := let (_, a, _, _) := e in a.
Definition el_text (e : element) : option string := let (_, _, x, _) := e in x.
Definition el_children (e : element) : list element := let (_, _, _, c) := e in c.

(** [e.iter(tag)]: the element and its descendants, in document order,
    that carry the tag. *)
Fixpoint iter (tag : string) (e : element) : list element :=
  match e with
  | Element t _ _ cs =>
      (if String.eqb t tag then [e] else []) ++ flat_map (iter tag) cs
  end.

(** The location paths the client uses are sequences of child steps, some
    with an attribute test: [tag] and [tag[@name="value"]]. *)
Inductive step : Type :=
| Child (tag : string)
| ChildWith (tag : string) (attr : string) (value : string).

Definition step_matches (s : step) (e : element) : bool :=
  match s with
  | Child tag => String.eqb (el_tag e) tag
  | ChildWith tag attr value =>
      String.eqb (el_tag e) tag &&
      match dict_get attr (el_attrib e) with
      | Some v => String.eqb v value
      | None => false
      end
  end.

Fixpoint select (path : list step) (context : list element) : list element :=
  match path with
  | [] => context
  | s :: path' =>
      select path' (flat_map (fun e => filter (step_matches s) (el_children e)) context)
  end.

Definition findall (path : list step) (e : element) : list element := select path [e].

Definition find (path : list step) (e : element) : option element :=
  match findall path e with
  | [] => None
  | x :: _ => Some x
  end.

Definition xwiki (local : string) : string := "{http://www.xwiki.org}" ++ local.

(** ** JSON values, as [json.loads] builds them (numbers kept integral) *)

Inductive json : Type :=
| JNull
| JBool (b : bool)
| JNumber (n : Z)
| JString (s : string)
| JArray (items : list json)
| JObject (members : list (string * json)).

(** [value[key]] for a string key. *)
Definition subscript (value : json) (key : string) : outcome json :=
  match value with
  | JObject members =>
      match dict_get key members with
      | Some v => Ok v
      | None => Raise (KeyError key)
      end
  | JArray _ => Raise (TypeError "list indices must be integers or slices, not str")
  | JString _ => Raise (TypeError "string indices must be integers")
  | _ => Raise (TypeError "object is not subscriptable")
  end.

(** ** The outside world

    Everything the program does to its environment is recorded, in the
    order it happens: an HTTP request sent, a call of the progress
    callback handed to the exporter, a row given to the CSV writer. *)

Open Scope list_scope.

Inductive event : Type :=
| Request (r : request)
| Progress (count : Z)
| WriteRow (row : list (option string)).

Definition log : Type := list event.

Definition requests_of (w : log) : list request :=
  flat_map (fun e => match e with Request r => [r] | _ => [] end) w.

Definition progress_calls (w : log) : list Z :=
  flat_map (fun e => match e with Progress c => [c] | _ => [] end) w.

Definition rows_written (w : log) : list (list (option string)) :=
  flat_map (fun e => match e with WriteRow r => [r] | _ => [] end) w.

(** Requests that change the server: everything except GET. *)
Definition is_mutation (r : request) : bool :=
  match req_method r with
  | GET => false
  | _ => true
  end.

Definition mutations_of (w : log) : list request := filter is_mutation (requests_of w).

(** ** The monad of the program: a log that survives exceptions *)

Definition M (A : Type) : Type := log -> outcome A * log.

Definition ret {A : Type} (a : A) : M A := fun w => (Ok a, w).

Definition raise {A : Type} (e : exn) : M A := fun w => (Raise e, w).

Definition bind {A B : Type} (c : M A) (k : A -> M B) : M B :=
  fun w =>
    match c w with
    | (Ok a, w') => k a w'
    | (Raise e, w') => (Raise e, w')
    end.

Definition lift {A : Type} (o : outcome A) : M A := fun w => (o, w).

Definition emit (e : event) : M unit := fun w => (Ok tt, w ++ [e]).

Declare Scope py_scope.
Delimit Scope py_scope with py.
Notation "x <- c ;; k" := (bind c (fun x => k))
  (at level 61, c at next level, right associativity) : py_scope.
Notation "c ;; k" := (bind c (fun _ => k))
  (at level 61, right associativity) : py_scope.
Open Scope py_scope.

(** [d[key]] on a dictionary. *)
Definition getitem {V : Type} (d : dict V) (key : string) : outcome V :=
  match dict_get key d with
  | Some v => Ok v
  | None => Raise (KeyError key)
  end.

(** [r.raise_for_status()]: the client and server error ranges raise. *)
Definition raise_for_status (r : response) : outcome unit :=
  if (400 <=? status_code r)%Z && (status_code r <? 600)%Z
  then Raise (HTTPError (status_code r))
  else Ok tt.

(** The names bound at module level in [phenotipsbot.py]; none of them
    is bound to a string. *)
Definition module_globals : list string :=
  ["json"; "requests"; "b64encode"; "OrderedDict"; "copy"; "basename";
   "webdriver"; "ElementTree"; "PhenoTipsBot"; "ApgarType"; "RelativeType";
   "SexType"].

(** Evaluating a name used as a string operand: the local scope, then the
    module (no local name shadows a builtin here, and the module binds
    classes and modules, which do not concatenate to a string). *)
Definition load_name (locals : dict string) (name : string) : outcome string :=
  match dict_get name locals with
  | Some v => Ok v
  | None =>
      if existsb (String.eqb name) module_globals
      then Raise (TypeError "can only concatenate str to str")
      else Raise (NameError name)
  end.

Record PhenoTipsBot : Type := mkBot {
  base : string;
  auth : string * string;
  ssl_verify : bool }.

(** The property descriptor that [list_class_properties] builds. *)
Record descriptor : Type := mkDescriptor {
  d_type : string;
  d_numberType : option string;
  d_validationRegExp : option string;
  d_values : option (dict string) }.

Notation "'try' x := c 'in' k" :=
  (match c with Ok x => k | Raise e => Raise e end)
  (at level 10, x name, c at level 100, k at level 200, only parsing) : py_scope.

(** [r.headers[name]]. *)
Definition header_getitem (name : string) (r : response) : outcome string :=
  match header_get name (headers r) with
  | Some v => Ok v
  | None => Raise (KeyError name)
  end.

(** [s.rfind(c)]: index of the last occurrence, or -1. *)
Fixpoint rfind_from (c : ascii) (s : string) (i last : Z) : Z :=
  match s with
  | EmptyString => last
  | String d s' => rfind_from c s' (i + 1)%Z (if Ascii.eqb d c then i else last)
  end.

Definition rfind (c : ascii) (s : string) : Z := rfind_from c s 0%Z (-1)%Z.

(** The form data of [create_object] and [set_object]: one
    [property#<key>] entry per item of the object, on top of [data]. *)
Definition property_data (object_obj : dict string) (data : dict string) : dict string :=
  fold_left (fun data kv => dict_set ("property#" ++ fst kv)%string (snd kv) data)
            object_obj data.

(** The body of the loop of [get_object]: the right-hand side of the
    assignment is evaluated before the subscript of its target. *)
Fixpoint collect_properties (props : list element) (ret : dict (option string))
  : outcome (dict (option string)) :=
  match props with
  | [] => Ok ret
  | prop :: props' =>
      match find [Child (xwiki "value")] prop with
      | None => Raise (AttributeError "'NoneType' object has no attribute 'text'")
      | Some value =>
          try name := getitem (el_attrib prop) "name" in
          collect_properties props' (dict_set name (el_text value) ret)
      end
  end.

(** The [values] attribute of a class property: [key=value|key=value],
    a token without [=] standing for itself. *)
Definition parse_values (s : string) : dict string :=
  fold_left
    (fun values key_value_pair =>
       match PyStr.split "=" key_value_pair with
       | key :: value :: _ => dict_set key value values
       | key :: [] => dict_set key key values
       | [] => values
       end)
    (PyStr.split "|" s) [].

Definition attribute_named (name : string) : list step :=
  [ChildWith (xwiki "attribute") "name" name].

(** [el.attrib['value']] when the element is there, for the three
    optional attributes of a class property. *)
Definition optional_value (el : option element) : outcome (option string) :=
  match el with
  | None => Ok None
  | Some el => try v := getitem (el_attrib el) "value" in Ok (Some v)
  end.

(** The body of the loop of [list_class_properties]. *)
Fixpoint collect_class_properties (props : list element) (ret : dict descriptor)
  : outcome (dict descriptor) :=
  match props with
  | [] => Ok ret
  | prop :: props' =>
      try prop_name := getitem (el_attrib prop) "name" in
      try prop_type := getitem (el_attrib prop) "type" in
      let number_type_el := find (attribute_named "numberType") prop in
      let regex_el := find (attribute_named "validationRegExp") prop in
      let values_el := find (attribute_named "values") prop in
      try number_type := optional_value number_type_el in
      try regex := optional_value regex_el in
      try values := optional_value values_el in
      collect_class_properties props'
        (dict_set prop_name
           (mkDescriptor prop_type number_type regex (option_map parse_values values))
           ret)
  end.

(** ** The client, class [PhenoTipsBot] *)

Section Client.

(** The server: what it answers to a request may depend on every request
    it has received before; a request may also get no answer at all. *)
Variable server : list request -> request -> outcome response.

(** [ElementTree.fromstring] and [json.loads]. *)
Variable fromstring : string -> outcome element.
Variable json_loads : string -> outcome json.

Variable self : PhenoTipsBot.

Definition send (r : request) : M response :=
  fun w => (server (requests_of w) r, w ++ [Request r]).

Definition requests_get (url : string) (params : dict string) : M response :=
  send (mkRequest GET url params [] (auth self) (ssl_verify self)).

Definition requests_post (url : string) (data : dict string) : M response :=
  send (mkRequest POST url [] data (auth self) (ssl_verify self)).

Definition requests_put (url : string) (data : dict string) : M response :=
  send (mkRequest PUT url [] data (auth self) (ssl_verify self)).

Definition requests_delete (url : string) : M response :=
  send (mkRequest DELETE url [] [] (auth self) (ssl_verify self)).

Definition objects_url (patient_id : string) : string :=
  (base self ++ "/rest/wikis/xwiki/spaces/data/pages/" ++ patient_id ++ "/objects")%string.

Definition object_url (patient_id object_class object_num : string) : string :=
  (base self ++ "/rest/wikis/xwiki/spaces/data/pages/" ++ patient_id ++ "/objects/"
     ++ object_class ++ "/" ++ object_num)%string.

Definition create_object (patient_id object_class : string) (object_obj : dict string)
  : M string :=
  let url := objects_url patient_id in
  let data := property_data object_obj [("className", object_class)] in
  r <- requests_post url data ;;
  lift (raise_for_status r) ;;
  object_number <- lift (header_getitem "location" r) ;;
  let object_number :=
    PyStr.slice_from (Z.to_nat (rfind "/" object_number + 1)) object_number in
  ret object_number.

Definition delete_object (patient_id object_class object_num : string) : M unit :=
  let locals :=
    [("patient_id", patient_id); ("object_class", object_class);
     ("object_num", object_num)] in
  relative_num <- lift (load_name locals "relative_num") ;;
  let url := object_url patient_id object_class relative_num in
  r <- requests_delete url ;;
  lift (raise_for_status r).

Definition delete_collaborator (patient_id collaborator_num : string) : M unit :=
  delete_object patient_id "PhenoTips.CollaboratorClass" collaborator_num.

Definition delete_relative (patient_id relative_num : string) : M unit :=
  delete_object patient_id "PhenoTips.RelativeClass" relative_num.

Definition delete_vcf (patient_id vcf_num : string) : M unit :=
  delete_object patient_id "PhenoTips.VCF" vcf_num.

(** What [get_object] makes of the answer to its request. *)
Definition object_of_response (r : response) : outcome (dict (option string)) :=
  try _ := raise_for_status r in
  try root := fromstring (text r) in
  collect_properties (iter (xwiki "property") root) [].

Definition get_object (patient_id object_class object_num : string)
  : M (dict (option string)) :=
  let url := object_url patient_id object_class object_num in
  r <- requests_get url [] ;;
  lift (object_of_response r).

Definition get (patient_id : string) : M (dict (option string)) :=
  get_object patient_id "PhenoTips.PatientClass" "0".

(** The three shapes of the result of [get_id]. *)
Inductive id_result : Type :=
| IdNone
| IdSingle (id : json)
| IdList (ids : list (option string)).

Definition content_type_of (header : string) : string :=
  nth 0 (PyStr.split ";" header) EmptyString.

Definition get_id (external_id : string) : M id_result :=
  let url := (base self ++ "/rest/patients/eid/" ++ external_id)%string in
  r <- requests_get url [] ;;
  if (status_code r =? 404)%Z then ret IdNone
  else
    lift (raise_for_status r) ;;
    header <- lift (header_getitem "content-type" r) ;;
    let content_type := content_type_of header in
    if String.eqb content_type "application/json" then
      value <- lift (json_loads (text r)) ;;
      id <- lift (subscript value "id") ;;
      ret (IdSingle id)
    else if String.eqb content_type "application/xml" then
      root <- lift (fromstring (text r)) ;;
      let id_elements :=
        findall [Child (xwiki "alternatives"); Child (xwiki "patient");
                 Child (xwiki "id")] root in
      ret (IdList (map el_text id_elements))
    else raise (TypeError "Expected JSON or XML").

Definition get_owner (patient_id : string) : M (option string) :=
  obj <- get_object patient_id "PhenoTips.OwnerClass" "0" ;;
  owner <- lift (getitem obj "owner") ;;
  match owner with
  | None => raise (AttributeError "'NoneType' object has no attribute 'startswith'")
  | Some owner => ret (unqualify owner default_namespace)
  end.

Definition study_url (patient_id : string) : string :=
  (base self ++ "/rest/wikis/xwiki/spaces/data/pages/" ++ patient_id
     ++ "/objects/PhenoTips.StudyBindingClass/0")%string.

Definition get_study (patient_id : string) : M (option string) :=
  let url := study_url patient_id in
  r <- requests_get url [] ;;
  if (status_code r =? 404)%Z then ret None
  else
    lift (raise_for_status r) ;;
    root <- lift (fromstring (text r)) ;;
    let el :=
      find [ChildWith (xwiki "property") "name" "studyReference";
            Child (xwiki "value")] root in
    match el with
    | None => raise (AttributeError "'NoneType' object has no attribute 'text'")
    | Some el =>
        match el_text el with
        | None => ret (Some EmptyString)
        | Some t =>
            if negb (PyStr.truthy t) then ret (Some EmptyString)
            else ret (unqualify t "Studies")
        end
    end.

Definition list_class_properties (class_name : string) : M (dict descriptor) :=
  let url := (base self ++ "/rest/wikis/xwiki/classes/" ++ class_name)%string in
  r <- requests_get url [] ;;
  lift (raise_for_status r) ;;
  root <- lift (fromstring (text r)) ;;
  lift (collect_class_properties (iter (xwiki "property") root) []).

Definition list_patient_class_properties : M (dict descriptor) :=
  list_class_properties "PhenoTips.PatientClass".

Definition set_object (patient_id object_class object_num : string)
           (object_obj : dict string) : M unit :=
  let url := object_url patient_id object_class object_num in
  let data := property_data object_obj [] in
  r <- requests_put url data ;;
  lift (raise_for_status r).

Definition set_owner (patient_id owner : string) : M unit :=
  let owner_name := qualify owner default_namespace in
  set_object patient_id "PhenoTips.OwnerClass" "0" [("owner", owner)].

Definition set_study (patient_id : string) (study : option string) : M unit :=
  let url := study_url patient_id in
  r <- requests_get url [] ;;
  if (status_code r =? 404)%Z then
    match study with
    | None => ret tt
    | Some study =>
        let data := [("studyReference", qualify study "Studies")] in
        create_object patient_id "PhenoTips.StudyBindingClass" data ;;
        ret tt
    end
  else
    lift (raise_for_status r) ;;
    match study with
    | None =>
        requests_delete url ;;
        lift (raise_for_status r)
    | Some study =>
        let data := [("property#studyReference", qualify study "Studies")] in
        r <- requests_put url data ;;
        lift (raise_for_status r)
    end.

(** *** The requests and answers the properties below speak of *)

(** The existence check both [get_study] and [set_study] start with. *)
Definition study_check (patient_id : string) : request :=
  mkRequest GET (study_url patient_id) [] [] (auth self) (ssl_verify self).

Definition study_create (patient_id study : string) : request :=
  mkRequest POST (objects_url patient_id) []
            [("className", "PhenoTips.StudyBindingClass");
             ("property#studyReference", qualify study "Studies")]
            (auth self) (ssl_verify self).

Definition study_update (patient_id study : string) : request :=
  mkRequest PUT (study_url patient_id) []
            [("property#studyReference", qualify study "Studies")]
            (auth self) (ssl_verify self).

Definition study_delete (patient_id : string) : request :=
  mkRequest DELETE (study_url patient_id) [] [] (auth self) (ssl_verify self).

(** The request of [get_id]. *)
Definition id_lookup (external_id : string) : request :=
  mkRequest GET (base self ++ "/rest/patients/eid/" ++ external_id)%string [] []
            (auth self) (ssl_verify self).

(** The content type of a response: its header up to the first [;]. *)
Definition has_content_type (r : response) (content_type : string) : Prop :=
  exists header,
    header_get "content-type" (headers r) = Some header /\
    content_type_of header = content_type.

(** The [value] element of the [studyReference] property of a binding. *)
Definition study_reference (root : element) : option element :=
  find [ChildWith (xwiki "property") "name" "studyReference"; Child (xwiki "value")] root.

End Client.

(** ** The exporter, [export_patients] of [export-csv.py]

    [out_file] and [progress_callback] are the caller's: writing a row
    and calling the callback are events of the log.  The second component
    of the result, the elapsed wall-clock time, is left out. *)

Section Exporter.

Variable server : list request -> request -> outcome response.
Variable fromstring : string -> outcome element.
Variable bot : PhenoTipsBot.

Definition progress_callback (count : Z) : M unit := emit (Progress count).

Definition writerow (row : list (option string)) : M unit := emit (WriteRow row).

(** The inner loop: [row.append(patient[prop_name])] for each name. *)
Fixpoint build_row (patient : dict (option string)) (prop_names : list string)
         (row : list (option string)) : outcome (list (option string)) :=
  match prop_names with
  | [] => Ok row
  | prop_name :: prop_names' =>
      try cell := getitem patient prop_name in
      build_row patient prop_names' (row ++ [cell])
  end.

(** The outer loop, with its two counters. *)
Fixpoint export_loop (prop_names : dict descriptor) (patient_ids : list string)
         (count n_exported : Z) : M Z :=
  match patient_ids with
  | [] => ret n_exported
  | patient_id :: patient_ids' =>
      progress_callback count ;;
      let count := (count + 1)%Z in
      patient <- get server fromstring bot patient_id ;;
      row <- lift (build_row patient (dict_keys prop_names) []) ;;
      writerow row ;;
      let n_exported := (n_exported + 1)%Z in
      export_loop prop_names patient_ids' count n_exported
  end.

Definition export_patients (patient_ids : list string) : M Z :=
  let count := 0%Z in
  let n_exported := 0%Z in
  prop_names <- list_patient_class_properties server fromstring bot ;;
  writerow (map Some (dict_keys prop_names)) ;;
  export_loop prop_names patient_ids count n_exported.

(** *** The requests and answers the properties below speak of *)

(** The header row: the names of the schema, in its order. *)
Definition header_of (prop_names : dict descriptor) : list (option string) :=
  map Some (dict_keys prop_names).

Definition schema_request : request :=
  mkRequest GET (base bot ++ "/rest/wikis/xwiki/classes/PhenoTips.PatientClass")%string
            [] [] (auth bot) (ssl_verify bot).

Definition patient_request (patient_id : string) : request :=
  mkRequest GET (object_url bot patient_id "PhenoTips.PatientClass" "0")
            [] [] (auth bot) (ssl_verify bot).

(** What the schema fetch yields when [h] is what has been sent so far. *)
Definition schema_of (h : list request) : outcome (dict descriptor) :=
  try r := server h schema_request in
  try _ := raise_for_status r in
  try root := fromstring (text r) in
  collect_class_properties (iter (xwiki "property") root) [].

(** What [bot.get(patient_id)] yields when [h] is what has been sent so far. *)
Definition fetched (h : list request) (patient_id : string) : outcome (dict (option string)) :=
  try r := server h (patient_request patient_id) in
  object_of_response fromstring r.

(** The successive fetches of a list of patients, one after the other. *)
Fixpoint fetches (h : list request) (patient_ids : list string)
  : list (outcome (dict (option string))) :=
  match patient_ids with
  | [] => []
  | patient_id :: patient_ids' =>
      fetched h patient_id :: fetches (h ++ [patient_request patient_id]) patient_ids'
  end.

(** A row lists the values a property bag has for the names, in their order. *)
Definition is_row (names : list string) (patient : dict (option string))
           (row : list (option string)) : Prop :=
  Forall2 (fun name cell => dict_get name patient = Some cell) names row.

(** A property bag that has every one of the names. *)
Definition complete (names : list string) (patient : dict (option string)) : Prop :=
  Forall (fun name => dict_get name patient <> None) names.

(** The log without the rows: callback calls and requests, in their order. *)
Definition without_rows (w : log) : log :=
  filter (fun e => match e with WriteRow _ => false | _ => true end) w.

(** A callback call before each fetch, counting from [count]. *)
Fixpoint calls_and_fetches (count : Z) (patient_ids : list string) : log :=
  match patient_ids with
  | [] => []
  | patient_id :: patient_ids' =>
      Progress count :: Request (patient_request patient_id)
        :: calls_and_fetches (count + 1)%Z patient_ids'
  end.

End Exporter.

(** ** The rest of the client

    The operations of class [PhenoTipsBot] that go through the REST
    interface.  The operations that drive a browser are not modelled;
    [create] reaches one of them, [set_pedigree], which is a parameter
    here, as is the type of the pedigrees it takes. *)

(** The actual arguments of a call, for the one call of the class that
    passes more arguments than the method has parameters. *)
Inductive pyarg : Type :=
| ArgBot (bot : PhenoTipsBot)
| ArgStr (s : string)
| ArgDict (d : dict string).

(** [list(map(lambda pagename: PhenoTipsBot.unqualify(pagename, namespace), names))]:
    [unqualify] calls [startswith] on its argument, which [None] lacks. *)
Fixpoint unqualify_all (namespace : string) (names : list (option string))
  : outcome (list (option string)) :=
  match names with
  | [] => Ok []
  | None :: _ => Raise (AttributeError "'NoneType' object has no attribute 'startswith'")
  | Some pagename :: names' =>
      try rest := unqualify_all namespace names' in
      Ok (unqualify pagename namespace :: rest)
  end.

(** Truth value of an optional string: [None] and [''] are falsy. *)
Definition truthy_opt (s : option string) : bool :=
  match s with
  | None => false
  | Some s => PyStr.truthy s
  end.

(** The text a truthy optional string holds. *)
Definition text_of (s : option string) : string :=
  match s with
  | None => EmptyString
  | Some s => s
  end.

(** The part of a [Location] header after its last slash. *)
Definition after_last_slash (location : string) : string :=
  PyStr.slice_from (Z.to_nat (rfind "/" location + 1)) location.

Section Queries.

Local Open Scope string_scope.

(** The query of [list], built clause by clause. *)
Definition list_query (study owner having_object : option string) : string :=
  let query := ", BaseObject as obj" in
  let query :=
    match study with
    | Some _ => query ++ ", BaseObject as study_obj, StringProperty as study_prop"
    | None => query
    end in
  let query :=
    if truthy_opt owner
    then query ++ ", BaseObject as owner_obj, StringProperty as owner_prop"
    else query in
  let query :=
    if truthy_opt having_object then query ++ ", BaseObject as needful_obj" else query in
  let query :=
    query ++ " where doc.space = 'data' and doc.fullName = obj.name and obj.className = 'PhenoTips.PatientClass'" in
  let query :=
    if truthy_opt having_object
    then query ++ " and doc.fullName = needful_obj.name and needful_obj.className = '"
               ++ text_of having_object ++ "'"
    else query in
  let query :=
    match study with
    | Some study =>
        let query :=
          query ++ " and doc.fullName = study_obj.name and study_obj.className = 'PhenoTips.StudyBindingClass'" in
        let query :=
          query ++ " and study_obj.id = study_prop.id.id and study_prop.id.name = 'studyReference'" in
        query ++ " and study_prop.value = 'xwiki:Studies." ++ study ++ "'"
    | None => query
    end in
  let query :=
    if truthy_opt owner
    then
      let query :=
        query ++ " and doc.fullName = owner_obj.name and owner_obj.className = 'PhenoTips.OwnerClass'" in
      let query :=
        query ++ " and owner_obj.id = owner_prop.id.id and owner_prop.id.name = 'owner'" in
      query ++ " and owner_prop.value = '" ++ qualify (text_of owner) default_namespace ++ "'"
    else query in
  query.

(** The query of [list_pages]. *)
Definition list_pages_query (space : string) (having_object : option string) : string :=
  let query := ", BaseObject as obj where doc.space = '" ++ space ++ "'" in
  let query :=
    if truthy_opt having_object
    then query ++ " and doc.fullName = obj.name and obj.className = '"
               ++ text_of having_object ++ "'"
    else query in
  query.

End Queries.

(** The first lines of [create_collaborator] and [set_collaborator]: a
    copy of the object with its collaborator qualified, when it has one. *)
Definition qualify_collaborator (collaborator_obj : dict string) : dict string :=
  match dict_get "collaborator" collaborator_obj with
  | Some collaborator =>
      dict_set "collaborator" (qualify collaborator default_namespace) collaborator_obj
  | None => collaborator_obj
  end.

Section ClientOperations.

Variable server : list request -> request -> outcome response.
Variable fromstring : string -> outcome element.
Variable json_loads : string -> outcome json.
Variable self : PhenoTipsBot.

(** The pedigrees and the browser-driven [set_pedigree]. *)
Variable pedigree : Type.
Variable pedigree_truthy : pedigree -> bool.
Variable set_pedigree : string -> pedigree -> M unit.

(** A call of [self.create_object] with the given actual arguments. *)
Definition call_create_object (args : list pyarg) : M string :=
  if negb (Nat.eqb (List.length args) 3) then
    raise (TypeError "create_object() takes 4 positional arguments but 5 were given")
  else
    match args with
    | [ArgStr patient_id; ArgStr object_class; ArgDict object_obj] =>
        create_object server self patient_id object_class object_obj
    | _ => raise (TypeError "unsupported operand type(s)")
    end.

Definition set (patient_id : string) (patient_obj : dict string) : M unit :=
  set_object server self patient_id "PhenoTips.PatientClass" "0" patient_obj.

Definition create (patient_obj : option (dict string)) (study owner : option string)
           (pedigree_obj : option pedigree) : M string :=
  r <- requests_post server self (base self ++ "/rest/patients")%string [] ;;
  lift (raise_for_status r) ;;
  patient_id <- lift (header_getitem "location" r) ;;
  let patient_id := after_last_slash patient_id in
  match patient_obj with
  | Some (item :: items) => set patient_id (item :: items)
  | _ => ret tt
  end ;;
  (if truthy_opt study then set_study server self patient_id study else ret tt) ;;
  (if truthy_opt owner then set_owner server self patient_id (text_of owner) else ret tt) ;;
  match pedigree_obj with
  | Some p => if pedigree_truthy p then set_pedigree patient_id p else ret tt
  | None => ret tt
  end ;;
  let url := (base self ++ "/bin/edit/data/" ++ patient_id)%string in
  r <- requests_get server self url [] ;;
  lift (raise_for_status r) ;;
  ret patient_id.

Definition create_collaborator (patient_id : string) (collaborator_obj : dict string)
  : M string :=
  let collaborator_obj := qualify_collaborator collaborator_obj in
  call_create_object
    [ArgBot self; ArgStr patient_id; ArgStr "PhenoTips.CollaboratorClass";
     ArgDict collaborator_obj].

Definition create_relative (patient_id : string) (relative_obj : dict string) : M string :=
  create_object server self patient_id "PhenoTips.RelativeClass" relative_obj.

Definition create_vcf (patient_id : string) (vcf_obj : dict string) : M string :=
  create_object server self patient_id "PhenoTips.VCF" vcf_obj.

Definition delete (patient_id : string) : M unit :=
  r <- requests_delete server self (base self ++ "/rest/patients/" ++ patient_id)%string ;;
  lift (raise_for_status r).

Definition get_collaborator (patient_id collaborator_num : string)
  : M (dict (option string)) :=
  ret_obj <- get_object server fromstring self patient_id
                        "PhenoTips.CollaboratorClass" collaborator_num ;;
  collaborator <- lift (getitem ret_obj "collaborator") ;;
  match collaborator with
  | None => raise (AttributeError "'NoneType' object has no attribute 'startswith'")
  | Some collaborator =>
      ret (dict_set "collaborator" (unqualify collaborator default_namespace) ret_obj)
  end.

Definition get_pedigree (patient_id : string) : M json :=
  obj <- get_object server fromstring self patient_id "PhenoTips.PedigreeClass" "0" ;;
  data <- lift (getitem obj "data") ;;
  match data with
  | None =>
      raise (TypeError "the JSON object must be str, bytes or bytearray, not NoneType")
  | Some data => lift (json_loads data)
  end.

Definition get_relative (patient_id relative_num : string) : M (dict (option string)) :=
  get_object server fromstring self patient_id "PhenoTips.RelativeClass" relative_num.

Definition get_vcf (patient_id vcf_num : string) : M (dict (option string)) :=
  get_object server fromstring self patient_id "PhenoTips.VCF" vcf_num.

Definition list_hql (query : string) : M (list (option string)) :=
  let url := (base self ++ "/rest/wikis/xwiki/query")%string in
  r <- requests_get server self url [("q", query); ("type", "hql")] ;;
  lift (raise_for_status r) ;;
  root <- lift (fromstring (text r)) ;;
  let id_elements := findall [Child (xwiki "searchResult"); Child (xwiki "id")] root in
  ret (map el_text id_elements).

(** The method [list]; the name is taken by the type of lists. *)
Definition list_ (study owner having_object : option string) : M (list (option string)) :=
  let query := list_query study owner having_object in
  names <- list_hql query ;;
  lift (unqualify_all "data" names).

Definition list_objects (patient_id object_class : string) : M (list (option string)) :=
  let url := (base self ++ "/rest/wikis/xwiki/spaces/data/pages/" ++ patient_id
                ++ "/objects/" ++ object_class)%string in
  r <- requests_get server self url [] ;;
  lift (raise_for_status r) ;;
  root <- lift (fromstring (text r)) ;;
  let number_elements :=
    findall [Child (xwiki "objectSummary"); Child (xwiki "number")] root in
  ret (map el_text number_elements).

Definition list_collaborators (patient_id : string) : M (list (option string)) :=
  list_objects patient_id "PhenoTips.CollaboratorClass".

Definition list_relatives (patient_id : string) : M (list (option string)) :=
  list_objects patient_id "PhenoTips.RelativeClass".

Definition list_vcfs (patient_id : string) : M (list (option string)) :=
  list_objects patient_id "PhenoTips.VCF".

Definition list_pages (space : string) (having_object : option string)
  : M (list (option string)) :=
  let query := list_pages_query space having_object in
  names <- list_hql query ;;
  lift (unqualify_all space names).

Definition list_groups : M (list (option string)) :=
  list_pages "Groups" (Some "PhenoTips.PhenoTipsGroupClass").

Definition list_studies : M (list (option string)) :=
  list_pages "Studies" (Some "PhenoTips.StudyClass").

Definition list_users : M (list (option string)) :=
  list_pages "XWiki" (Some "XWiki.XWikiUsers").

Definition set_collaborator (patient_id collaborator_num : string)
           (collaborator_obj : dict string) : M unit :=
  let collaborator_obj := qualify_collaborator collaborator_obj in
  set_object server self patient_id "PhenoTips.CollaboratorClass" collaborator_num
             collaborator_obj.

Definition set_relative (patient_id relative_num : string) (relative_obj : dict string)
  : M unit :=
  set_object server self patient_id "PhenoTips.RelativeClass" relative_num relative_obj.

Definition set_vcf (patient_id vcf_num : string) (vcf_obj : dict string) : M unit :=
  set_object server self patient_id "PhenoTips.VCF" vcf_num vcf_obj.

(** The request of [list_hql] and the names it reads in the answer. *)
Definition query_request (query : string) : request :=
  mkRequest GET (base self ++ "/rest/wikis/xwiki/query")%string
            [("q", query); ("type", "hql")] [] (auth self) (ssl_verify self).

Definition search_results (root : element) : list (option string) :=
  map el_text (findall [Child (xwiki "searchResult"); Child (xwiki "id")] root).

(** The [name] attribute of a property element. *)
Definition attrib_name (prop : element) : string :=
  match dict_get "name" (el_attrib prop) with
  | Some name => name
  | None => EmptyString
  end.

(** The text of the [value] child of a property element. *)
Definition value_text (prop : element) : option string :=
  match find [Child (xwiki "value")] prop with
  | Some value => el_text value
  | None => None
  end.

(** The two requests of [create] itself. *)
Definition create_request : request :=
  mkRequest POST (base self ++ "/rest/patients")%string [] [] (auth self) (ssl_verify self).

Definition edit_request (patient_id : string) : request :=
  mkRequest GET (base self ++ "/bin/edit/data/" ++ patient_id)%string [] []
            (auth self) (ssl_verify self).

(** Nothing to set: no patient data or empty data, no study or an empty
    one, no owner or an empty one, no pedigree or a falsy one. *)
Definition nothing_to_set (patient_obj : option (dict string)) (study owner : option string)
           (pedigree_obj : option pedigree) : Prop :=
  (patient_obj = None \/ patient_obj = Some []) /\
  truthy_opt study = false /\
  truthy_opt owner = false /\
  match pedigree_obj with
  | Some p => pedigree_truthy p = false
  | None => True
  end.

End ClientOperations.

(** *** Notions the properties of these operations speak of *)

(** The index of the last occurrence of a character, if there is one. *)
Fixpoint last_index (c : ascii) (s : string) : option nat :=
  match s with
  | EmptyString => None
  | String d s' =>
      match last_index c s' with
      | Some k => Some (S k)
      | None => if Ascii.eqb d c then Some 0 else None
      end
  end.

(** [sep.join(parts)]. *)
Fixpoint join (sep : ascii) (parts : list string) : string :=
  match parts with
  | [] => EmptyString
  | [part] => part
  | part :: parts' => (part ++ String sep (join sep parts'))%string
  end.

(** An entry of the [values] attribute of a class property: a bare token
    or a key with its value. *)
Inductive values_entry : Type :=
| Bare (token : string)
| Pair (key value : string).

Definition encode_entry (e : values_entry) : string :=
  match e with
  | Bare token => token
  | Pair key value => (key ++ "=" ++ value)%string
  end.

Definition entry_item (e : values_entry) : string * string :=
  match e with
  | Bare token => (token, token)
  | Pair key value => (key, value)
  end.

(** An entry whose parts hold neither of the two separators. *)
Definition plain_entry (e : values_entry) : Prop :=
  match e with
  | Bare token => PyStr.contains "|" token = false /\ PyStr.contains "=" token = false
  | Pair key value =>
      PyStr.contains "|" key = false /\ PyStr.contains "=" key = false /\
      PyStr.contains "|" value = false /\ PyStr.contains "=" value = false
  end.

(** ** The command line of [export-csv.py]

    The first part of the main program: the options that [getopt] has
    found are assigned, what is missing of the URL, the user name and the
    password is asked for on the terminal, and the bot is made.  The
    terminal is the lines still to be typed and what has been written to
    the standard error stream; reading past the last line raises
    [EOFError]. *)

Record options : Type := mkOptions {
  opt_base_url : option string;
  opt_username : option string;
  opt_password : option string;
  opt_study : option string;
  opt_owner : option string }.

Definition no_options : options := mkOptions None None None None None.

(** The body of the loop over [optlist]. *)
Definition assign_option (o : options) (option : string * string) : options :=
  let (name, value) := option in
  if String.eqb name "--base-url" then
    mkOptions (Some value) (opt_username o) (opt_password o) (opt_study o) (opt_owner o)
  else if String.eqb name "--username" then
    mkOptions (opt_base_url o) (Some value) (opt_password o) (opt_study o) (opt_owner o)
  else if String.eqb name "--password" then
    mkOptions (opt_base_url o) (opt_username o) (Some value) (opt_study o) (opt_owner o)
  else if String.eqb name "--study" then
    mkOptions (opt_base_url o) (opt_username o) (opt_password o) (Some value) (opt_owner o)
  else if String.eqb name "--owner" then
    mkOptions (opt_base_url o) (opt_username o) (opt_password o) (opt_study o) (Some value)
  else o.

Definition assign_options (optlist : list (string * string)) : options :=
  fold_left assign_option optlist no_options.

Record terminal : Type := mkTerminal {
  keyboard : list string;
  stderr : list string }.

Inductive reading (A : Type) : Type :=
| Read (a : A)
| EOFError.

Arguments Read {A} a.
Arguments EOFError {A}.

Definition T (A : Type) : Type := terminal -> reading A * terminal.

Definition tret {A : Type} (a : A) : T A := fun t => (Read a, t).

Definition tbind {A B : Type} (c : T A) (k : A -> T B) : T B :=
  fun t =>
    match c t with
    | (Read a, t') => k a t'
    | (EOFError, t') => (EOFError, t')
    end.

Definition stderr_write (s : string) : T unit :=
  fun t => (Read tt, mkTerminal (keyboard t) (stderr t ++ [s])).

Definition input : T string :=
  fun t =>
    match keyboard t with
    | [] => (EOFError, t)
    | line :: lines => (Read line, mkTerminal lines (stderr t))
    end.

Definition getpass (prompt : string) : T string :=
  tbind (stderr_write prompt) (fun _ => input).

(** [s.rstrip(c)] for one character. *)
Fixpoint rstrip (c : ascii) (s : string) : string :=
  match s with
  | EmptyString => EmptyString
  | String d s' =>
      match rstrip c s' with
      | EmptyString => if Ascii.eqb d c then EmptyString else String d EmptyString
      | String e rest => String d (String e rest)
      end
  end.

(** [s.endswith(c)] for one character. *)
Fixpoint endswith (c : ascii) (s : string) : bool :=
  match s with
  | EmptyString => false
  | String d EmptyString => Ascii.eqb d c
  | String _ s' => endswith c s'
  end.

(** The value asked for when the option is missing or empty, and then
    the default when the answer is empty as well. *)
Definition ask (value : option string) (prompt : T string) (default : string) : T string :=
  tbind (if negb (truthy_opt value) then prompt else tret (text_of value))
        (fun value => if negb (PyStr.truthy value) then tret default else tret value).

Definition normalize_base_url (base_url : string) : string :=
  let base_url :=
    if negb (PyStr.startswith "http://" base_url)
       && negb (PyStr.startswith "https://" base_url)
    then ("http://" ++ base_url)%string
    else base_url in
  rstrip "/" base_url.

Definition resolve_connection (o : options) : T PhenoTipsBot :=
  tbind (ask (opt_base_url o)
             (tbind (stderr_write "Input the URL (blank for http://localhost:8080): ")
                    (fun _ => input))
             "http://localhost:8080")
        (fun base_url =>
  let base_url := normalize_base_url base_url in
  tbind (ask (opt_username o)
             (tbind (stderr_write "Input your username (blank for Admin): ")
                    (fun _ => input))
             "Admin")
        (fun username =>
  tbind (ask (opt_password o)
             (getpass "Input your password (blank for admin): ")
             "admin")
        (fun password =>
  tret (mkBot base_url (username, password) true)))).

(** ** A sample installation

    A server with the class of the patients, three patient records and a
    study binding, used to run the definitions above on concrete input. *)

Module Sample.

Definition bot : PhenoTipsBot := mkBot "http://localhost:8080" ("Admin", "admin") true.

Definition answer (status : Z) (content_type body : string) : response :=
  mkResponse status [("Content-Type", content_type)] body.

(** A server that gives one answer to everything. *)
Definition always (r : response) : list request -> request -> outcome response :=
  fun _ _ => Ok r.

(** A server that answers GET by URL and has nothing elsewhere. *)
Definition route (pages : dict response) : list request -> request -> outcome response :=
  fun _ r =>
    match dict_get (req_url r) pages with
    | Some a => Ok a
    | None => Ok (answer 404 "text/plain" "")
    end.

(** A parser known by the bodies it is run on. *)
Definition parser {A : Type} (bodies : dict A) (failure : exn) (s : string) : outcome A :=
  match dict_get s bodies with
  | Some a => Ok a
  | None => Raise failure
  end.

Definition property (name : string) (value : option string) : element :=
  Element (xwiki "property") [("name", name); ("type", "String")] None
          [Element (xwiki "value") [] value []].

Definition object (properties : list element) : element :=
  Element (xwiki "object") [] None properties.

Definition class_property (name : string) : element :=
  Element (xwiki "property") [("name", name); ("type", "com.xpn.xwiki.objects.classes.StringClass")]
          None
          [Element (xwiki "attribute") [("name", "size"); ("value", "30")] None []].

(** The bodies the server sends, and what the parsers make of them. *)
Definition class_xml : string :=
  "<class><property name='first_name'/><property name='last_name'/></class>".
Definition ann_xml : string :=
  "<object><property name='first_name'><value>Ann</value></property><property name='last_name'><value>Lee</value></property></object>".
Definition bo_xml : string :=
  "<object><property name='first_name'><value>Bo</value></property><property name='last_name'><value>Smith</value></property></object>".
Definition cy_xml : string :=
  "<object><property name='first_name'><value>Cy</value></property></object>".
Definition binding_xml : string :=
  "<object><property name='studyReference'><value>xwiki:Studies.Cardiac</value></property></object>".
Definition relative_binding_xml : string :=
  "<object><property name='studyReference'><value>Studies.Cardiac</value></property></object>".
Definition empty_binding_xml : string :=
  "<object><property name='studyReference'><value/></property></object>".
Definition alternatives_xml : string :=
  "<alternatives><patient><id>P0000001</id></patient><patient><id>P0000002</id></patient></alternatives>".

Definition quote : string := String (ascii_of_nat 34) EmptyString.

Definition id_json : string :=
  ("{" ++ quote ++ "id" ++ quote ++ ": " ++ quote ++ "P0000001" ++ quote ++ "}")%string.

Definition patient_class : element :=
  Element (xwiki "class") [] None [class_property "first_name"; class_property "last_name"].

Definition alternatives : element :=
  Element (xwiki "patients") [] None
    [Element (xwiki "alternatives") [] None
       [Element (xwiki "patient") [] None [Element (xwiki "id") [] (Some "P0000001") []];
        Element (xwiki "patient") [] None [Element (xwiki "id") [] (Some "P0000002") []]]].

Definition fromstring : string -> outcome element :=
  parser
    [(class_xml, patient_class);
     (ann_xml, object [property "first_name" (Some "Ann"); property "last_name" (Some "Lee")]);
     (bo_xml, object [property "first_name" (Some "Bo"); property "last_name" (Some "Smith")]);
     (cy_xml, object [property "first_name" (Some "Cy")]);
     (binding_xml, object [property "studyReference" (Some "xwiki:Studies.Cardiac")]);
     (relative_binding_xml, object [property "studyReference" (Some "Studies.Cardiac")]);
     (empty_binding_xml, object [property "studyReference" None]);
     (alternatives_xml, alternatives)]
    ParseError.

Definition json_loads : string -> outcome json :=
  parser [(id_json, JObject [("id", JString "P0000001")])] JSONDecodeError.

Definition patient_page (patient_id body : string) : string * response :=
  (object_url bot patient_id "PhenoTips.PatientClass" "0", answer 200 "application/xml" body).

(** The clinic: the patient class and the records of Ann, Bo and Cy; Cy's
    record has no [last_name]. *)
Definition clinic : list request -> request -> outcome response :=
  route
    [((base bot ++ "/rest/wikis/xwiki/classes/PhenoTips.PatientClass")%string,
      answer 200 "application/xml" class_xml);
     patient_page "P0000001" ann_xml;
     patient_page "P0000002" bo_xml;
     patient_page "P0000003" cy_xml].

(** A server for the study of one patient, with or without a binding. *)
Definition study_server (bound : bool) : list request -> request -> outcome response :=
  fun _ r =>
    match req_method r with
    | GET =>
        if bound then Ok (answer 200 "application/xml" binding_xml)
        else Ok (answer 404 "text/plain" "")
    | POST =>
        Ok (mkResponse 201
              [("Location", (req_url r ++ "/PhenoTips.StudyBindingClass/0")%string)] "")
    | PUT => Ok (mkResponse 202 [] "")
    | DELETE => Ok (mkResponse 204 [] "")
    end.

(** What the parsers and the client make of the sample bodies. *)
Definition schema : dict descriptor :=
  [("first_name", mkDescriptor "com.xpn.xwiki.objects.classes.StringClass" None None None);
   ("last_name", mkDescriptor "com.xpn.xwiki.objects.classes.StringClass" None None None)].

Definition ann : dict (option string) := [("first_name", Some "Ann"); ("last_name", Some "Lee")].
Definition bo : dict (option string) := [("first_name", Some "Bo"); ("last_name", Some "Smith")].
Definition cy : dict (option string) := [("first_name", Some "Cy")].

End Sample.

(** ** A second sample: collaborators, owners, queries and creation *)

Module Ward.

Definition bot : PhenoTipsBot := Sample.bot.

Definition collaborator_xml : string :=
  "<object><property name='collaborator'><value>xwiki:XWiki.jdoe</value></property><property name='access'><value>edit</value></property></object>".
Definition owner_xml : string :=
  "<object><property name='owner'><value>xwiki:XWiki.Admin</value></property></object>".
Definition dotted_binding_xml : string :=
  "<object><property name='studyReference'><value>xwiki:Dr. Lee</value></property></object>".
Definition patients_xml : string :=
  "<searchResults><searchResult><id>xwiki:data.P0000001</id></searchResult><searchResult><id>xwiki:data.P0000002</id></searchResult></searchResults>".
Definition studies_xml : string :=
  "<searchResults><searchResult><id>xwiki:Studies.Cardiac</id></searchResult></searchResults>".

Definition search (names : list string) : element :=
  Element (xwiki "searchResults") [] None
    (map (fun name =>
            Element (xwiki "searchResult") [] None
                    [Element (xwiki "id") [] (Some name) []])
         names).

Definition collaborator : dict (option string) :=
  [("collaborator", Some "xwiki:XWiki.jdoe"); ("access", Some "edit")].

Definition fromstring : string -> outcome element :=
  Sample.parser
    [(collaborator_xml,
      Sample.object [Sample.property "collaborator" (Some "xwiki:XWiki.jdoe");
                     Sample.property "access" (Some "edit")]);
     (owner_xml, Sample.object [Sample.property "owner" (Some "xwiki:XWiki.Admin")]);
     (dotted_binding_xml,
      Sample.object [Sample.property "studyReference" (Some "xwiki:Dr. Lee")]);
     (patients_xml, search ["xwiki:data.P0000001"; "xwiki:data.P0000002"]);
     (studies_xml, search ["xwiki:Studies.Cardiac"]);
     (Sample.class_xml, Sample.patient_class);
     (Sample.ann_xml,
      Sample.object [Sample.property "first_name" (Some "Ann");
                     Sample.property "last_name" (Some "Lee")])]
    ParseError.

(** A server that gives one body to every GET, creates what is POSTed
    at the given location and accepts every PUT and DELETE. *)
Definition serving (body location : string) : list request -> request -> outcome response :=
  fun _ r =>
    match req_method r with
    | GET => Ok (Sample.answer 200 "application/xml" body)
    | POST => Ok (mkResponse 201 [("Location", location)] "")
    | PUT => Ok (mkResponse 202 [] "")
    | DELETE => Ok (mkResponse 204 [] "")
    end.

(** A server that has the binding of a study and fails to delete it. *)
Definition stubborn : list request -> request -> outcome response :=
  fun _ r =>
    match req_method r with
    | GET => Ok (Sample.answer 200 "application/xml" Sample.binding_xml)
    | _ => Ok (Sample.answer 500 "text/plain" "")
    end.

Definition forbidden : response := Sample.answer 403 "text/plain" "".

Definition relative : dict string :=
  [("relative_type", "sibling"); ("relative_of", "P0000002")].

Definition share : dict string := [("collaborator", "jdoe"); ("access", "edit")].

End Ward.

(** * Properties *)

(** ** Strings *)

Lemma contains_app c a b :
  PyStr.contains c (a ++ b)%string = PyStr.contains c a || PyStr.contains c b.
Proof.
  induction a as [|d a IH]; simpl; [reflexivity|].
  destruct (Ascii.eqb c d); [reflexivity | exact IH].
Qed.

Lemma startswith_app p s : PyStr.startswith p (p ++ s)%string = true.
Proof.
  induction p as [|a p IH]; simpl; [reflexivity|].
  rewrite Ascii.eqb_refl. exact IH.
Qed.

Lemma slice_from_app p s : PyStr.slice_from (String.length p) (p ++ s)%string = s.
Proof.
  induction p as [|a p IH]; simpl; [reflexivity | exact IH].
Qed.

Lemma string_app_assoc a b c : ((a ++ b) ++ c = a ++ (b ++ c))%string.
Proof.
  induction a as [|x a IH]; simpl; [reflexivity | now rewrite IH].
Qed.

Lemma string_length_app a b :
  String.length (a ++ b)%string = String.length a + String.length b.
Proof.
  induction a as [|x a IH]; simpl; [reflexivity | now rewrite IH].
Qed.

Lemma truthy_app_r a b : PyStr.truthy b = true -> PyStr.truthy (a ++ b)%string = true.
Proof.
  destruct a; simpl; auto.
Qed.

(** ** [qualify] and [unqualify] *)

(** A name that is non-empty and has both a dot and a colon is left alone. *)
Lemma qualify_fixed p ns :
  PyStr.truthy p = true ->
  PyStr.contains "." p = true ->
  PyStr.contains ":" p = true ->
  qualify p ns = p.
Proof.
  intros Ht Hd Hc. unfold qualify. rewrite Ht, Hd. cbn [negb]. rewrite Hc. reflexivity.
Qed.

(** Whatever [qualify] returns for a non-empty name has a dot and a colon. *)
Lemma qualify_shape n ns :
  PyStr.truthy n = true ->
  PyStr.truthy (qualify n ns) = true /\
  PyStr.contains "." (qualify n ns) = true /\
  PyStr.contains ":" (qualify n ns) = true.
Proof.
  intros Ht. unfold qualify. rewrite Ht. cbn [negb].
  set (p := if negb (PyStr.contains "." n) then (ns ++ "." ++ n)%string else n).
  assert (Hp : PyStr.truthy p = true /\ PyStr.contains "." p = true).
  { subst p. destruct (PyStr.contains "." n) eqn:Hd; cbn [negb].
    - now split.
    - split.
      + apply truthy_app_r. reflexivity.
      + rewrite contains_app. cbn. apply orb_true_r. }
  destruct Hp as [Hpt Hpd].
  destruct (PyStr.contains ":" p) eqn:Hc; cbn [negb].
  - split; [assumption | split; assumption].
  - split; [| split].
    + reflexivity.
    + rewrite contains_app, Hpd. apply orb_true_r.
    + rewrite contains_app. reflexivity.
Qed.

(** The qualified form of a bare name in a namespace without a colon. *)
Lemma qualify_bare n ns :
  bare_name n ->
  PyStr.contains ":" ns = false ->
  qualify n ns = ("xwiki:" ++ ns ++ "." ++ n)%string.
Proof.
  intros (Ht & Hd & Hc) Hns. unfold qualify. rewrite Ht, Hd. cbn [negb].
  rewrite contains_app, Hns. cbn [orb].
  rewrite contains_app, Hc. reflexivity.
Qed.

(** C9: [qualify] is idempotent, for every name and every namespace:
    [qualify(qualify(n, ns), ns) == qualify(n, ns)]. *)
Theorem qualify_idempotent (n ns : string) :
  qualify (qualify n ns) ns = qualify n ns.
Proof.
  destruct (PyStr.truthy n) eqn:Ht.
  - destruct (qualify_shape n ns Ht) as (H1 & H2 & H3).
    now apply qualify_fixed.
  - destruct n; [reflexivity | discriminate].
Qed.

(** C3, as stated, fails: in a namespace that has a colon, [qualify] adds
    no [xwiki:] prefix, and [unqualify] then returns [None]. *)
Lemma unqualify_qualify_colon_namespace :
  bare_name "Admin" /\
  qualify "Admin" "a:b" = "a:b.Admin" /\
  unqualify (qualify "Admin" "a:b") "a:b" = None /\
  unqualify (qualify "Admin" "a:b") "a:b" <> Some "Admin".
Proof.
  split; [split; [reflexivity | split; reflexivity] |].
  split; [reflexivity |]. split; [reflexivity | discriminate].
Qed.

(** C3, amended: for every bare name [n] (non-empty, without dot or colon)
    and every namespace [ns] that has no colon,
    [unqualify(qualify(n, ns), ns) == n]. *)
Theorem unqualify_qualify (n ns : string) :
  bare_name n ->
  PyStr.contains ":" ns = false ->
  unqualify (qualify n ns) ns = Some n.
Proof.
  intros Hn Hns. rewrite (qualify_bare n ns Hn Hns). unfold unqualify.
  replace ("xwiki:" ++ ns ++ "." ++ n)%string
    with (("xwiki:" ++ ns ++ ".") ++ n)%string
    by (now rewrite !string_app_assoc).
  rewrite startswith_app.
  replace (String.length "xwiki:" + String.length ns + String.length ".")
    with (String.length ("xwiki:" ++ ns ++ ".")%string)
    by (rewrite !string_length_app; lia).
  now rewrite slice_from_app.
Qed.

Lemma unqualify_qualify_witness :
  unqualify (qualify "Admin" "XWiki") "XWiki" = Some "Admin".
Proof.
  apply (unqualify_qualify "Admin" "XWiki").
  - split; [reflexivity | split; reflexivity].
  - reflexivity.
Defined.

(** ** Running the monad *)

Ltac unfold_monad :=
  unfold requests_get, requests_post, requests_put, requests_delete in *;
  unfold bind, ret, raise, lift, emit, send in *; cbv zeta in *.

Lemma requests_of_app w1 w2 : requests_of (w1 ++ w2) = requests_of w1 ++ requests_of w2.
Proof. unfold requests_of. apply flat_map_app. Qed.

Lemma progress_calls_app w1 w2 :
  progress_calls (w1 ++ w2) = progress_calls w1 ++ progress_calls w2.
Proof. unfold progress_calls. apply flat_map_app. Qed.

Lemma rows_written_app w1 w2 :
  rows_written (w1 ++ w2) = rows_written w1 ++ rows_written w2.
Proof. unfold rows_written. apply flat_map_app. Qed.

Lemma mutations_of_app w1 w2 :
  mutations_of (w1 ++ w2) = mutations_of w1 ++ mutations_of w2.
Proof. unfold mutations_of. now rewrite requests_of_app, filter_app. Qed.

(** ** Deleting a sub-object *)

(** C7: [delete_object], and with it [delete_collaborator],
    [delete_relative] and [delete_vcf], should send a DELETE to the URL of
    the sub-object and return when the server reports success.  The code
    builds the URL from the name [relative_num], which is not bound in
    [delete_object]: on every input the call raises [NameError] and
    nothing is sent, whatever the server would have answered. *)
Theorem delete_object_raises_NameError
        (server : list request -> request -> outcome response)
        (self : PhenoTipsBot) (patient_id object_class object_num : string) (w : log) :
  delete_object server self patient_id object_class object_num w
    = (Raise (NameError "relative_num"), w) /\
  delete_collaborator server self patient_id object_num w
    = (Raise (NameError "relative_num"), w) /\
  delete_relative server self patient_id object_num w
    = (Raise (NameError "relative_num"), w) /\
  delete_vcf server self patient_id object_num w
    = (Raise (NameError "relative_num"), w).
Proof.
  unfold delete_collaborator, delete_relative, delete_vcf, delete_object.
  unfold_monad. cbn. repeat split; reflexivity.
Qed.

(** ** The owner of a patient *)

(** C8: [set_owner] should write the qualified form of the owner name.
    It computes that form and then writes the name it was given: the one
    request it sends is a PUT whose [property#owner] is the argument. *)
Theorem set_owner_writes_its_argument
        (server : list request -> request -> outcome response)
        (self : PhenoTipsBot) (patient_id owner : string) (w : log) :
  snd (set_owner server self patient_id owner w)
    = w ++ [Request (mkRequest PUT
                       (object_url self patient_id "PhenoTips.OwnerClass" "0")
                       [] [("property#owner", owner)]
                       (auth self) (ssl_verify self))].
Proof.
  unfold set_owner, set_object. unfold_monad. cbn.
  destruct (server _ _) as [r|e]; [destruct (raise_for_status r) |]; reflexivity.
Qed.

(** ** The study of a patient *)

Section Study.

Variable server : list request -> request -> outcome response.
Variable fromstring : string -> outcome element.
Variable self : PhenoTipsBot.
Variable patient_id : string.

(** C4: the four cases of [set_study], by what the existence check is
    answered and whether a study is given.  With a 404 and no study,
    nothing but the check is sent, so no POST, PUT or DELETE; with a 404
    and a study, a POST creating a [PhenoTips.StudyBindingClass] object
    follows the check; with a success status and a study, a PUT to the
    binding follows and no POST; with a success status and no study, a
    DELETE of the binding follows. *)
Theorem set_study_requests (w : log) (r : response) :
  server (requests_of w) (study_check self patient_id) = Ok r ->
  (status_code r = 404%Z ->
     set_study server self patient_id None w = (Ok tt, w ++ [Request (study_check self patient_id)]) /\
     mutations_of (snd (set_study server self patient_id None w)) = mutations_of w) /\
  (status_code r = 404%Z ->
     forall study,
       snd (set_study server self patient_id (Some study) w)
         = w ++ [Request (study_check self patient_id); Request (study_create self patient_id study)]) /\
  (status_code r <> 404%Z -> raise_for_status r = Ok tt ->
     forall study,
       snd (set_study server self patient_id (Some study) w)
         = w ++ [Request (study_check self patient_id); Request (study_update self patient_id study)]) /\
  (status_code r <> 404%Z -> raise_for_status r = Ok tt ->
     snd (set_study server self patient_id None w)
       = w ++ [Request (study_check self patient_id); Request (study_delete self patient_id)]).
Proof.
  intros Hr.
  assert (Hnone : status_code r = 404%Z ->
                  set_study server self patient_id None w
                    = (Ok tt, w ++ [Request (study_check self patient_id)])).
  { intros H404. unfold set_study. unfold_monad. fold (study_check self patient_id).
    rewrite Hr, H404. reflexivity. }
  split; [| split; [| split]].
  - intros H404. split; [now apply Hnone |].
    rewrite (Hnone H404). cbn [snd].
    rewrite mutations_of_app. cbn. now rewrite app_nil_r.
  - intros H404 study. unfold set_study, create_object. unfold_monad.
    fold (study_check self patient_id). rewrite Hr, H404. cbn -[qualify].
    fold (study_create self patient_id study).
    destruct (server _ (study_create self patient_id study)) as [r'|e]; cbn [snd].
    + destruct (raise_for_status r'); cbn [snd].
      * destruct (header_getitem "location" r'); cbn [snd];
          now rewrite <- app_assoc.
      * now rewrite <- app_assoc.
    + now rewrite <- app_assoc.
  - intros Hn Hok study. apply Z.eqb_neq in Hn.
    unfold set_study. unfold_monad. fold (study_check self patient_id).
    rewrite Hr, Hn, Hok. fold (study_update self patient_id study).
    destruct (server _ (study_update self patient_id study)) as [r'|e]; cbn [snd];
      now rewrite <- app_assoc.
  - intros Hn Hok. apply Z.eqb_neq in Hn.
    unfold set_study. unfold_monad. fold (study_check self patient_id).
    rewrite Hr, Hn, Hok. fold (study_delete self patient_id).
    destruct (server _ (study_delete self patient_id)) as [r'|e]; cbn [snd];
      rewrite ?Hok; cbn [snd]; now rewrite <- app_assoc.
Qed.

End Study.

(** ** Looking up an external identifier *)

Section GetId.

Variable server : list request -> request -> outcome response.
Variable fromstring : string -> outcome element.
Variable json_loads : string -> outcome json.
Variable self : PhenoTipsBot.
Variable external_id : string.

(** C5, amended: [get_id] returns [None] when the server answers 404.
    For an answer that is not an HTTP error (the status check that
    precedes the dispatch passes) it returns the [id] member of the JSON
    body when the content type is [application/json], the list of the
    texts of the [alternatives/patient/id] elements of the XML body when
    it is [application/xml], and raises [TypeError] for every other
    content type. *)
Theorem get_id_cases (w : log) (r : response) :
  server (requests_of w) (id_lookup self external_id) = Ok r ->
  (status_code r = 404%Z ->
     fst (get_id server fromstring json_loads self external_id w) = Ok IdNone) /\
  (status_code r <> 404%Z -> raise_for_status r = Ok tt ->
     has_content_type r "application/json" ->
     forall value id,
       json_loads (text r) = Ok value ->
       subscript value "id" = Ok id ->
       fst (get_id server fromstring json_loads self external_id w) = Ok (IdSingle id)) /\
  (status_code r <> 404%Z -> raise_for_status r = Ok tt ->
     has_content_type r "application/xml" ->
     forall root,
       fromstring (text r) = Ok root ->
       fst (get_id server fromstring json_loads self external_id w)
         = Ok (IdList (map el_text
                         (findall [Child (xwiki "alternatives");
                                   Child (xwiki "patient");
                                   Child (xwiki "id")] root)))) /\
  (status_code r <> 404%Z -> raise_for_status r = Ok tt ->
     forall content_type,
       has_content_type r content_type ->
       content_type <> "application/json" ->
       content_type <> "application/xml" ->
       fst (get_id server fromstring json_loads self external_id w)
         = Raise (TypeError "Expected JSON or XML")).
Proof.
  intros Hr.
  split; [| split; [| split]].
  - intros H404. unfold get_id. unfold_monad. fold (id_lookup self external_id).
    rewrite Hr, H404. reflexivity.
  - intros Hn Hok (header & Hh & Hct) value id Hv Hid. apply Z.eqb_neq in Hn.
    unfold get_id. unfold_monad. fold (id_lookup self external_id).
    rewrite Hr, Hn, Hok. unfold header_getitem. rewrite Hh, Hct.
    rewrite String.eqb_refl, Hv, Hid. reflexivity.
  - intros Hn Hok (header & Hh & Hct) root Hroot. apply Z.eqb_neq in Hn.
    unfold get_id. unfold_monad. fold (id_lookup self external_id).
    rewrite Hr, Hn, Hok. unfold header_getitem. rewrite Hh, Hct.
    replace (String.eqb "application/xml" "application/json") with false
      by reflexivity.
    rewrite String.eqb_refl, Hroot. reflexivity.
  - intros Hn Hok content_type (header & Hh & Hct) Hj Hx. apply Z.eqb_neq in Hn.
    apply String.eqb_neq in Hj, Hx.
    unfold get_id. unfold_monad. fold (id_lookup self external_id).
    rewrite Hr, Hn, Hok. unfold header_getitem. rewrite Hh, Hct, Hj, Hx.
    reflexivity.
Qed.

End GetId.

(** ** Reading the study of a patient *)

Section GetStudy.

Variable server : list request -> request -> outcome response.
Variable fromstring : string -> outcome element.
Variable self : PhenoTipsBot.
Variable patient_id : string.

(** C10, amended: [get_study] returns [None] when the server answers 404
    to the lookup of the binding; when a binding is there it returns the
    empty string if the value of [studyReference] is empty, and the study
    name with its [xwiki:Studies.] prefix removed if the value has that
    prefix (with only [xwiki:] removed if it has just that one). *)
Theorem get_study_cases (w : log) (r : response) :
  server (requests_of w) (study_check self patient_id) = Ok r ->
  (status_code r = 404%Z ->
     fst (get_study server fromstring self patient_id w) = Ok None) /\
  (status_code r <> 404%Z -> raise_for_status r = Ok tt ->
     forall root el,
       fromstring (text r) = Ok root ->
       study_reference root = Some el ->
       (el_text el = None \/ el_text el = Some EmptyString ->
          fst (get_study server fromstring self patient_id w) = Ok (Some EmptyString)) /\
       (forall name,
          el_text el = Some ("xwiki:Studies." ++ name)%string ->
          fst (get_study server fromstring self patient_id w) = Ok (Some name)) /\
       (forall t,
          el_text el = Some ("xwiki:" ++ t)%string ->
          PyStr.startswith "Studies." t = false ->
          fst (get_study server fromstring self patient_id w) = Ok (Some t))).
Proof.
  intros Hr. split.
  - intros H404. unfold get_study. unfold_monad. fold (study_check self patient_id).
    rewrite Hr, H404. reflexivity.
  - intros Hn Hok root el Hroot Hel. apply Z.eqb_neq in Hn.
    unfold study_reference in Hel.
    assert (Hrun : fst (get_study server fromstring self patient_id w)
                   = match el_text el with
                     | None => Ok (Some EmptyString)
                     | Some t =>
                         if negb (PyStr.truthy t) then Ok (Some EmptyString)
                         else Ok (unqualify t "Studies")
                     end).
    { unfold get_study. unfold_monad. fold (study_check self patient_id).
      rewrite Hr, Hn, Hok, Hroot, Hel.
      destruct (el_text el) as [t|]; [destruct (negb (PyStr.truthy t)) |];
        reflexivity. }
    rewrite Hrun. split; [| split].
    + intros [Ht | Ht]; rewrite Ht; reflexivity.
    + intros name Ht. rewrite Ht. reflexivity.
    + intros t Ht Hs. rewrite Ht. cbn [PyStr.truthy append negb].
      unfold unqualify.
      replace (PyStr.startswith ("xwiki:" ++ "Studies" ++ ".") _)
        with (PyStr.startswith "Studies." t) by reflexivity.
      rewrite Hs. reflexivity.
Qed.

End GetStudy.

(** ** The cases above, on the sample installation *)

Lemma set_study_requests_witness :
  set_study (Sample.study_server false) Sample.bot "P0000001" None []
    = (Ok tt, [Request (study_check Sample.bot "P0000001")]) /\
  snd (set_study (Sample.study_server false) Sample.bot "P0000001" (Some "Cardiac") [])
    = [Request (study_check Sample.bot "P0000001");
       Request (study_create Sample.bot "P0000001" "Cardiac")] /\
  snd (set_study (Sample.study_server true) Sample.bot "P0000001" (Some "Cardiac") [])
    = [Request (study_check Sample.bot "P0000001");
       Request (study_update Sample.bot "P0000001" "Cardiac")] /\
  snd (set_study (Sample.study_server true) Sample.bot "P0000001" None [])
    = [Request (study_check Sample.bot "P0000001");
       Request (study_delete Sample.bot "P0000001")].
Proof.
  destruct (set_study_requests (Sample.study_server false) Sample.bot "P0000001" []
              (Sample.answer 404 "text/plain" "") eq_refl)
    as (Hnone & Hcreate & _ & _).
  destruct (set_study_requests (Sample.study_server true) Sample.bot "P0000001" []
              (Sample.answer 200 "application/xml" Sample.binding_xml) eq_refl)
    as (_ & _ & Hupdate & Hdelete).
  split; [exact (proj1 (Hnone eq_refl)) |].
  split; [exact (Hcreate eq_refl "Cardiac") |].
  split.
  - apply Hupdate; [discriminate | reflexivity].
  - apply Hdelete; [discriminate | reflexivity].
Defined.

(** The failing input of C8: asked to make [Admin] the owner, [set_owner]
    writes [Admin], not [xwiki:XWiki.Admin]. *)
Example set_owner_Admin :
  requests_of (snd (set_owner (Sample.always (mkResponse 202 [] "")) Sample.bot
                              "P0000001" "Admin" []))
    = [mkRequest PUT
         "http://localhost:8080/rest/wikis/xwiki/spaces/data/pages/P0000001/objects/PhenoTips.OwnerClass/0"
         [] [("property#owner", "Admin")] ("Admin", "admin") true] /\
  qualify "Admin" default_namespace = "xwiki:XWiki.Admin".
Proof. split; reflexivity. Qed.

(** The failing input of C7: no request is sent. *)
Example delete_relative_sends_nothing :
  delete_relative (Sample.always (mkResponse 204 [] "")) Sample.bot "P0000001" "0" []
    = (Raise (NameError "relative_num"), []).
Proof. reflexivity. Qed.

(** C5, as stated, fails: an answer with an error status and the content
    type [application/json] makes [get_id] raise the HTTP error; no
    identifier is returned. *)
Lemma get_id_json_error_status :
  has_content_type (Sample.answer 500 "application/json" Sample.id_json) "application/json" /\
  Sample.json_loads Sample.id_json = Ok (JObject [("id", JString "P0000001")]) /\
  get_id (Sample.always (Sample.answer 500 "application/json" Sample.id_json))
         Sample.fromstring Sample.json_loads Sample.bot "EXT1" []
    = (Raise (HTTPError 500), [Request (id_lookup Sample.bot "EXT1")]).
Proof.
  split; [| split; reflexivity].
  exists "application/json". split; reflexivity.
Qed.

Lemma get_id_cases_witness :
  fst (get_id (Sample.always (Sample.answer 404 "text/plain" ""))
              Sample.fromstring Sample.json_loads Sample.bot "EXT1" []) = Ok IdNone /\
  fst (get_id (Sample.always (Sample.answer 200 "application/json; charset=UTF-8" Sample.id_json))
              Sample.fromstring Sample.json_loads Sample.bot "EXT1" [])
    = Ok (IdSingle (JString "P0000001")) /\
  fst (get_id (Sample.always (Sample.answer 200 "application/xml" Sample.alternatives_xml))
              Sample.fromstring Sample.json_loads Sample.bot "EXT1" [])
    = Ok (IdList [Some "P0000001"; Some "P0000002"]) /\
  fst (get_id (Sample.always (Sample.answer 200 "text/html" "<html/>"))
              Sample.fromstring Sample.json_loads Sample.bot "EXT1" [])
    = Raise (TypeError "Expected JSON or XML").
Proof.
  split; [| split; [| split]].
  - refine (proj1 (get_id_cases _ Sample.fromstring Sample.json_loads Sample.bot "EXT1" []
                     (Sample.answer 404 "text/plain" "") eq_refl) eq_refl).
  - refine (proj1 (proj2 (get_id_cases _ Sample.fromstring Sample.json_loads Sample.bot
                            "EXT1" []
                            (Sample.answer 200 "application/json; charset=UTF-8" Sample.id_json)
                            eq_refl))
              _ eq_refl _ (JObject [("id", JString "P0000001")]) _ eq_refl eq_refl).
    + discriminate.
    + exists "application/json; charset=UTF-8". split; reflexivity.
  - refine (proj1 (proj2 (proj2 (get_id_cases _ Sample.fromstring Sample.json_loads
                                   Sample.bot "EXT1" []
                                   (Sample.answer 200 "application/xml" Sample.alternatives_xml)
                                   eq_refl)))
              _ eq_refl _ Sample.alternatives eq_refl).
    + discriminate.
    + exists "application/xml". split; reflexivity.
  - refine (proj2 (proj2 (proj2 (get_id_cases _ Sample.fromstring Sample.json_loads
                                   Sample.bot "EXT1" []
                                   (Sample.answer 200 "text/html" "<html/>") eq_refl)))
              _ eq_refl "text/html" _ _ _).
    + discriminate.
    + exists "text/html". split; reflexivity.
    + discriminate.
    + discriminate.
Defined.

(** C10, as stated, fails: a binding whose value has no [xwiki:] prefix
    makes [get_study] return [None] although the server answered 200. *)
Lemma get_study_None_without_404 :
  status_code (Sample.answer 200 "application/xml" Sample.relative_binding_xml) <> 404%Z /\
  get_study (Sample.always (Sample.answer 200 "application/xml" Sample.relative_binding_xml))
            Sample.fromstring Sample.bot "P0000001" []
    = (Ok None, [Request (study_check Sample.bot "P0000001")]).
Proof.
  split; [discriminate | reflexivity].
Qed.

Lemma get_study_cases_witness :
  fst (get_study (Sample.study_server false) Sample.fromstring Sample.bot "P0000001" [])
    = Ok None /\
  fst (get_study (Sample.always (Sample.answer 200 "application/xml" Sample.empty_binding_xml))
                 Sample.fromstring Sample.bot "P0000001" [])
    = Ok (Some EmptyString) /\
  fst (get_study (Sample.study_server true) Sample.fromstring Sample.bot "P0000001" [])
    = Ok (Some "Cardiac").
Proof.
  split; [| split].
  - exact (proj1 (get_study_cases (Sample.study_server false) Sample.fromstring Sample.bot
                    "P0000001" [] (Sample.answer 404 "text/plain" "") eq_refl) eq_refl).
  - refine (proj1 (proj2 (get_study_cases _ Sample.fromstring Sample.bot "P0000001" []
                            (Sample.answer 200 "application/xml" Sample.empty_binding_xml)
                            eq_refl)
                     _ eq_refl _ (Element (xwiki "value") [] None []) eq_refl eq_refl) _).
    + discriminate.
    + left. reflexivity.
  - refine (proj1 (proj2 (proj2 (get_study_cases (Sample.study_server true) Sample.fromstring
                                   Sample.bot "P0000001" []
                                   (Sample.answer 200 "application/xml" Sample.binding_xml)
                                   eq_refl)
                            _ eq_refl _
                            (Element (xwiki "value") [] (Some "xwiki:Studies.Cardiac") [])
                            eq_refl eq_refl))
              "Cardiac" eq_refl).
    discriminate.
Defined.

(** ** The exporter *)

Section ExporterProperties.

Variable server : list request -> request -> outcome response.
Variable fromstring : string -> outcome element.
Variable bot : PhenoTipsBot.

Local Abbreviation get_patient := (get server fromstring bot).
Local Abbreviation loop := (export_loop server fromstring bot).
Local Abbreviation export := (export_patients server fromstring bot).
Local Abbreviation fetched_at := (fetched server fromstring bot).
Local Abbreviation fetches_from := (fetches server fromstring bot).

Lemma without_rows_app w1 w2 : without_rows (w1 ++ w2) = without_rows w1 ++ without_rows w2.
Proof. unfold without_rows. apply filter_app. Qed.

Lemma get_run patient_id w :
  get_patient patient_id w
    = (fetched server fromstring bot (requests_of w) patient_id,
       w ++ [Request (patient_request bot patient_id)]).
Proof.
  unfold get, get_object, fetched. unfold_monad.
  fold (patient_request bot patient_id).
  destruct (server _ _); reflexivity.
Qed.

Lemma schema_run w :
  list_patient_class_properties server fromstring bot w
    = (schema_of server fromstring bot (requests_of w),
       w ++ [Request (schema_request bot)]).
Proof.
  unfold list_patient_class_properties, list_class_properties, schema_of.
  unfold_monad. fold (schema_request bot).
  destruct (server _ _) as [r|e]; [| reflexivity].
  destruct (raise_for_status r); [| reflexivity].
  destruct (fromstring (text r)); reflexivity.
Qed.

(** One turn of the loop: the callback, the fetch, and then either a row
    and the rest of the loop, or the exception of the fetch or of a
    missing property. *)
Lemma export_loop_step prop_names patient_id patient_ids count n_exported w :
  loop prop_names (patient_id :: patient_ids) count n_exported w
    = match fetched server fromstring bot (requests_of w) patient_id with
      | Ok patient =>
          match build_row patient (dict_keys prop_names) [] with
          | Ok row =>
              loop prop_names patient_ids (count + 1)%Z (n_exported + 1)%Z
                   (w ++ [Progress count; Request (patient_request bot patient_id);
                          WriteRow row])
          | Raise e =>
              (Raise e, w ++ [Progress count; Request (patient_request bot patient_id)])
          end
      | Raise e =>
          (Raise e, w ++ [Progress count; Request (patient_request bot patient_id)])
      end.
Proof.
  cbn [export_loop]. unfold bind at 1. unfold progress_callback at 1. unfold emit at 1.
  unfold bind at 1. rewrite get_run.
  replace (requests_of (w ++ [Progress count])) with (requests_of w)
    by (rewrite requests_of_app; cbn; now rewrite app_nil_r).
  rewrite <- app_assoc. cbn [app].
  destruct (fetched _ _ _ _ _) as [patient|e]; [| reflexivity].
  unfold bind at 1, lift at 1.
  destruct (build_row _ _ _) as [row|e]; [| reflexivity].
  unfold bind at 1, writerow at 1, emit at 1.
  rewrite <- app_assoc. reflexivity.
Qed.

(** *** Building a row *)

Lemma build_row_complete patient names acc :
  complete names patient ->
  exists row, build_row patient names acc = Ok (acc ++ row) /\ is_row names patient row.
Proof.
  unfold complete, is_row. intros Hc. revert acc.
  induction Hc as [|name names Hname _ IH]; intros acc.
  - exists []. cbn. rewrite app_nil_r. split; [reflexivity | constructor].
  - cbn [build_row]. unfold getitem.
    destruct (dict_get name patient) as [cell|] eqn:Hget; [| contradiction].
    destruct (IH (acc ++ [cell])) as (row & Hrow & Hvals).
    exists (cell :: row). split.
    + rewrite Hrow, <- app_assoc. reflexivity.
    + constructor; assumption.
Qed.

Lemma build_row_Ok patient names acc r :
  build_row patient names acc = Ok r ->
  exists row, r = acc ++ row /\ is_row names patient row.
Proof.
  unfold is_row. revert acc. induction names as [|name names IH]; intros acc; cbn [build_row].
  - intros [= <-]. exists []. rewrite app_nil_r. split; [reflexivity | constructor].
  - unfold getitem. destruct (dict_get name patient) as [cell|] eqn:Hget; [| discriminate].
    intros Hrow. destruct (IH _ Hrow) as (row & -> & Hvals).
    exists (cell :: row). split.
    + rewrite <- app_assoc. reflexivity.
    + constructor; assumption.
Qed.

Lemma requests_of_turn w count patient_id row :
  requests_of (w ++ [Progress count; Request (patient_request bot patient_id); WriteRow row])
    = requests_of w ++ [patient_request bot patient_id].
Proof. rewrite requests_of_app. reflexivity. Qed.

Lemma rows_written_turn w count patient_id row :
  rows_written (w ++ [Progress count; Request (patient_request bot patient_id); WriteRow row])
    = rows_written w ++ [row].
Proof. rewrite rows_written_app. reflexivity. Qed.

Lemma rows_written_abort w count patient_id :
  rows_written (w ++ [Progress count; Request (patient_request bot patient_id)])
    = rows_written w.
Proof. rewrite rows_written_app. cbn. apply app_nil_r. Qed.

(** *** The loop when every fetch succeeds *)

Lemma export_loop_all_fetched prop_names bags :
  forall patient_ids count n_exported w,
    fetches_from (requests_of w) patient_ids = map Ok bags ->
    Forall (complete (dict_keys prop_names)) bags ->
    exists rows,
      fst (loop prop_names patient_ids count n_exported w)
        = Ok (n_exported + Z.of_nat (List.length patient_ids))%Z /\
      rows_written (snd (loop prop_names patient_ids count n_exported w))
        = rows_written w ++ rows /\
      Forall2 (is_row (dict_keys prop_names)) bags rows.
Proof.
  induction bags as [|patient bags IH]; intros patient_ids count n_exported w Hf Hc.
  - destruct patient_ids; [| discriminate]. exists []. cbn.
    rewrite Z.add_0_r, app_nil_r. repeat split. constructor.
  - destruct patient_ids as [|patient_id patient_ids]; [discriminate |].
    cbn [fetches map] in Hf. injection Hf as Hfetch Hrest.
    inversion Hc as [|? ? Hpatient Hbags]; subst.
    rewrite export_loop_step, Hfetch.
    destruct (build_row_complete patient _ [] Hpatient) as (row & -> & Hrow).
    cbn [app].
    rewrite <- (requests_of_turn w count patient_id row) in Hrest.
    destruct (IH _ (count + 1)%Z (n_exported + 1)%Z _ Hrest Hbags) as (rows & Hres & Hrows & Hall).
    exists (row :: rows). split; [| split].
    + rewrite Hres. f_equal. cbn [List.length]. lia.
    + rewrite Hrows, rows_written_turn, <- app_assoc. reflexivity.
    + constructor; assumption.
Qed.

(** *** The loop when a fetch fails *)

Lemma export_loop_fetch_fails prop_names bags e rest :
  forall patient_ids count n_exported w,
    fetches_from (requests_of w) patient_ids = map Ok bags ++ Raise e :: rest ->
    Forall (complete (dict_keys prop_names)) bags ->
    exists rows,
      fst (loop prop_names patient_ids count n_exported w) = Raise e /\
      rows_written (snd (loop prop_names patient_ids count n_exported w))
        = rows_written w ++ rows /\
      Forall2 (is_row (dict_keys prop_names)) bags rows.
Proof.
  induction bags as [|patient bags IH]; intros patient_ids count n_exported w Hf Hc.
  - destruct patient_ids as [|patient_id patient_ids]; [discriminate |].
    cbn [fetches map app] in Hf. injection Hf as Hfetch _.
    rewrite export_loop_step, Hfetch. exists []. cbn [fst snd].
    rewrite rows_written_abort, app_nil_r. repeat split. constructor.
  - destruct patient_ids as [|patient_id patient_ids]; [discriminate |].
    cbn [fetches map app] in Hf. injection Hf as Hfetch Hrest.
    inversion Hc as [|? ? Hpatient Hbags]; subst.
    rewrite export_loop_step, Hfetch.
    destruct (build_row_complete patient _ [] Hpatient) as (row & -> & Hrow).
    cbn [app].
    rewrite <- (requests_of_turn w count patient_id row) in Hrest.
    destruct (IH _ (count + 1)%Z (n_exported + 1)%Z _ Hrest Hbags) as (rows & Hres & Hrows & Hall).
    exists (row :: rows). split; [| split].
    + exact Hres.
    + rewrite Hrows, rows_written_turn, <- app_assoc. reflexivity.
    + constructor; assumption.
Qed.

(** *** The rows of any run of the loop *)

Lemma export_loop_rows prop_names :
  forall patient_ids count n_exported w,
    exists bags rows,
      rows_written (snd (loop prop_names patient_ids count n_exported w))
        = rows_written w ++ rows /\
      Forall2 (is_row (dict_keys prop_names)) bags rows /\
      map Ok bags = firstn (List.length rows) (fetches_from (requests_of w) patient_ids).
Proof.
  induction patient_ids as [|patient_id patient_ids IH]; intros count n_exported w.
  - exists [], []. cbn. rewrite app_nil_r. repeat split. constructor.
  - rewrite export_loop_step.
    destruct (fetched_at (requests_of w) patient_id) as [patient|e] eqn:Hfetch.
    + destruct (build_row patient (dict_keys prop_names) []) as [r|e] eqn:Hbuild.
      * destruct (build_row_Ok _ _ _ _ Hbuild) as (row & -> & Hrow). cbn [app].
        destruct (IH (count + 1)%Z (n_exported + 1)%Z
                     (w ++ [Progress count; Request (patient_request bot patient_id);
                            WriteRow row]))
          as (bags & rows & Hrows & Hall & Hbags).
        exists (patient :: bags), (row :: rows). split; [| split].
        -- rewrite Hrows, rows_written_turn, <- app_assoc. reflexivity.
        -- constructor; assumption.
        -- cbn [map List.length fetches firstn]. rewrite Hfetch. f_equal.
           rewrite Hbags, requests_of_turn. reflexivity.
      * exists [], []. cbn [snd]. rewrite rows_written_abort, app_nil_r.
        repeat split. constructor.
    + exists [], []. cbn [snd]. rewrite rows_written_abort, app_nil_r.
      repeat split. constructor.
Qed.

(** *** Callback calls and fetches of any run of the loop *)

Lemma export_loop_calls prop_names :
  forall patient_ids count n_exported w,
    exists m,
      m <= List.length patient_ids /\
      without_rows (snd (loop prop_names patient_ids count n_exported w))
        = without_rows w ++ calls_and_fetches bot count (firstn m patient_ids) /\
      (forall n, fst (loop prop_names patient_ids count n_exported w) = Ok n ->
                 m = List.length patient_ids /\
                 n = (n_exported + Z.of_nat (List.length patient_ids))%Z).
Proof.
  induction patient_ids as [|patient_id patient_ids IH]; intros count n_exported w.
  - exists 0. cbn. rewrite app_nil_r. split; [lia |]. split; [reflexivity |].
    intros n [= <-]. split; [reflexivity | lia].
  - rewrite export_loop_step.
    assert (Habort : forall e : exn,
      exists m,
        m <= List.length (patient_id :: patient_ids) /\
        without_rows (snd (@Raise Z e,
                           w ++ [Progress count; Request (patient_request bot patient_id)]))
          = without_rows w ++ calls_and_fetches bot count (firstn m (patient_id :: patient_ids)) /\
        (forall n, fst (@Raise Z e,
                        w ++ [Progress count; Request (patient_request bot patient_id)]) = Ok n ->
                   m = List.length (patient_id :: patient_ids) /\
                   n = (n_exported + Z.of_nat (List.length (patient_id :: patient_ids)))%Z)).
    { intros e. exists 1. cbn [List.length fst snd firstn calls_and_fetches].
      split; [lia |]. split; [| discriminate].
      rewrite without_rows_app. reflexivity. }
    destruct (fetched_at (requests_of w) patient_id) as [patient|e]; [| apply Habort].
    destruct (build_row patient (dict_keys prop_names) []) as [row|e]; [| apply Habort].
    destruct (IH (count + 1)%Z (n_exported + 1)%Z
                 (w ++ [Progress count; Request (patient_request bot patient_id);
                        WriteRow row]))
      as (m & Hm & Hlog & Hok).
    exists (S m). cbn [List.length firstn calls_and_fetches]. split; [lia |]. split.
    + rewrite Hlog, without_rows_app, <- app_assoc. reflexivity.
    + intros n Hn. destruct (Hok n Hn) as [-> ->]. split; [reflexivity | lia].
Qed.

Lemma progress_calls_without_rows w : progress_calls (without_rows w) = progress_calls w.
Proof.
  unfold progress_calls, without_rows.
  induction w as [|e w IH]; [reflexivity |].
  destruct e; cbn [filter flat_map app]; now rewrite ?IH.
Qed.

Lemma progress_calls_calls_and_fetches patient_ids :
  forall count,
    progress_calls (calls_and_fetches bot count patient_ids)
      = map (fun i => (count + Z.of_nat i)%Z) (seq 0 (List.length patient_ids)).
Proof.
  induction patient_ids as [|patient_id patient_ids IH]; intros count; [reflexivity |].
  cbn [calls_and_fetches List.length seq map].
  change (progress_calls (Progress count :: Request (patient_request bot patient_id)
                            :: calls_and_fetches bot (count + 1) patient_ids))
    with (count :: progress_calls (calls_and_fetches bot (count + 1) patient_ids)).
  rewrite IH, <- seq_shift, map_map. f_equal; [lia |].
  apply map_ext. intros i. lia.
Qed.

(** *** The whole export *)

Lemma export_patients_run patient_ids w :
  export patient_ids w
    = match schema_of server fromstring bot (requests_of w) with
      | Ok prop_names =>
          loop prop_names patient_ids 0%Z 0%Z
               (w ++ [Request (schema_request bot); WriteRow (header_of prop_names)])
      | Raise e => (Raise e, w ++ [Request (schema_request bot)])
      end.
Proof.
  unfold export_patients. unfold bind at 1. rewrite schema_run.
  destruct (schema_of _ _ _ _) as [prop_names|e]; [| reflexivity].
  unfold bind at 1, writerow at 1, emit at 1. rewrite <- app_assoc. reflexivity.
Qed.

(** C1, amended: when the schema fetch has succeeded, every per-patient
    fetch succeeds and every fetched property bag has every property of
    the schema, [export_patients] returns the number of input IDs and has
    written, after the header, one row per ID in input order.  When a
    fetch fails after fetches that succeeded with such bags, the export
    ends with the exception of that fetch, and the output holds the
    header and the rows of the patients before it, no row after them. *)
Theorem export_patients_rows (patient_ids : list string) (w : log)
        (prop_names : dict descriptor) :
  schema_of server fromstring bot (requests_of w) = Ok prop_names ->
  (forall bags,
     fetches_from (requests_of w ++ [schema_request bot]) patient_ids = map Ok bags ->
     Forall (complete (dict_keys prop_names)) bags ->
     exists rows,
       fst (export patient_ids w) = Ok (Z.of_nat (List.length patient_ids)) /\
       rows_written (snd (export patient_ids w))
         = rows_written w ++ header_of prop_names :: rows /\
       List.length rows = List.length patient_ids /\
       Forall2 (is_row (dict_keys prop_names)) bags rows) /\
  (forall bags e rest,
     fetches_from (requests_of w ++ [schema_request bot]) patient_ids
       = map Ok bags ++ Raise e :: rest ->
     Forall (complete (dict_keys prop_names)) bags ->
     exists rows,
       fst (export patient_ids w) = Raise e /\
       rows_written (snd (export patient_ids w))
         = rows_written w ++ header_of prop_names :: rows /\
       Forall2 (is_row (dict_keys prop_names)) bags rows).
Proof.
  intros Hschema.
  assert (Hh : requests_of (w ++ [Request (schema_request bot);
                                  WriteRow (header_of prop_names)])
               = requests_of w ++ [schema_request bot])
    by (rewrite requests_of_app; reflexivity).
  assert (Hr : rows_written (w ++ [Request (schema_request bot);
                                   WriteRow (header_of prop_names)])
               = rows_written w ++ [header_of prop_names])
    by (rewrite rows_written_app; reflexivity).
  rewrite export_patients_run, Hschema. split.
  - intros bags Hf Hc. rewrite <- Hh in Hf.
    destruct (export_loop_all_fetched prop_names bags patient_ids 0%Z 0%Z _ Hf Hc)
      as (rows & Hres & Hrows & Hall).
    exists rows. split; [exact Hres |]. split; [| split].
    + rewrite Hrows, Hr, <- app_assoc. reflexivity.
    + rewrite <- (Forall2_length Hall).
      apply (f_equal (@List.length _)) in Hf.
      rewrite length_map in Hf. rewrite <- Hf.
      clear. generalize (requests_of (w ++ [Request (schema_request bot);
                                            WriteRow (header_of prop_names)])).
      induction patient_ids as [|p ps IH]; intros h; cbn; [reflexivity |].
      now rewrite (IH _).
    + exact Hall.
  - intros bags e rest Hf Hc. rewrite <- Hh in Hf.
    destruct (export_loop_fetch_fails prop_names bags e rest patient_ids 0%Z 0%Z _ Hf Hc)
      as (rows & Hres & Hrows & Hall).
    exists rows. split; [exact Hres |]. split; [| exact Hall].
    rewrite Hrows, Hr, <- app_assoc. reflexivity.
Qed.

(** C2: for every class schema the schema fetch returns, empty or not,
    [export_patients] first writes the header row, the property names of
    the schema in its order, and every row after it lists the values of
    one fetched patient for exactly those names in that order; the rows
    follow the order of the fetches. *)
Theorem export_patients_column_order (patient_ids : list string) (w : log)
        (prop_names : dict descriptor) :
  schema_of server fromstring bot (requests_of w) = Ok prop_names ->
  exists bags rows,
    rows_written (snd (export patient_ids w))
      = rows_written w ++ header_of prop_names :: rows /\
    Forall2 (is_row (dict_keys prop_names)) bags rows /\
    map Ok bags
      = firstn (List.length rows)
               (fetches_from (requests_of w ++ [schema_request bot]) patient_ids).
Proof.
  intros Hschema. rewrite export_patients_run, Hschema.
  destruct (export_loop_rows prop_names patient_ids 0%Z 0%Z
              (w ++ [Request (schema_request bot); WriteRow (header_of prop_names)]))
    as (bags & rows & Hrows & Hall & Hbags).
  exists bags, rows. split; [| split].
  - rewrite Hrows, rows_written_app, <- app_assoc. reflexivity.
  - exact Hall.
  - rewrite Hbags, requests_of_app. reflexivity.
Qed.

(** C6, amended: for every list of [n] patient IDs, [export_patients]
    calls the progress callback with 0, 1, ..., [m]-1 in this order for
    some [m] at most [n], each call with value [i] coming just before the
    fetch of the [i]-th patient and after the fetch of the one before;
    when the export returns, [m] is [n]: exactly [n] calls. *)
Theorem export_patients_progress (patient_ids : list string) (w : log) :
  exists m,
    m <= List.length patient_ids /\
    without_rows (snd (export patient_ids w))
      = without_rows w
          ++ Request (schema_request bot)
          :: calls_and_fetches bot 0%Z (firstn m patient_ids) /\
    progress_calls (snd (export patient_ids w))
      = progress_calls w ++ map Z.of_nat (seq 0 m) /\
    (forall n, fst (export patient_ids w) = Ok n -> m = List.length patient_ids).
Proof.
  assert (Hcalls : forall m w',
            m <= List.length patient_ids ->
            without_rows w'
              = without_rows w
                  ++ Request (schema_request bot)
                  :: calls_and_fetches bot 0%Z (firstn m patient_ids) ->
            progress_calls w' = progress_calls w ++ map Z.of_nat (seq 0 m)).
  { intros m w' Hm Hlog.
    rewrite <- (progress_calls_without_rows w'), Hlog, progress_calls_app.
    rewrite progress_calls_without_rows. f_equal.
    change (progress_calls (Request (schema_request bot)
                              :: calls_and_fetches bot 0 (firstn m patient_ids)))
      with (progress_calls (calls_and_fetches bot 0 (firstn m patient_ids))).
    rewrite progress_calls_calls_and_fetches, firstn_length_le by exact Hm.
    apply map_ext. intros i. lia. }
  rewrite export_patients_run.
  destruct (schema_of server fromstring bot (requests_of w)) as [prop_names|e].
  - destruct (export_loop_calls prop_names patient_ids 0%Z 0%Z
                (w ++ [Request (schema_request bot); WriteRow (header_of prop_names)]))
      as (m & Hm & Hlog & Hok).
    assert (Hlog' : without_rows
                      (snd (loop prop_names patient_ids 0%Z 0%Z
                              (w ++ [Request (schema_request bot);
                                     WriteRow (header_of prop_names)])))
                    = without_rows w
                        ++ Request (schema_request bot)
                        :: calls_and_fetches bot 0%Z (firstn m patient_ids)).
    { rewrite Hlog, without_rows_app. cbn [without_rows filter].
      rewrite <- app_assoc. reflexivity. }
    exists m. split; [exact Hm |]. split; [exact Hlog' |]. split.
    + apply (Hcalls m _ Hm Hlog').
    + intros n Hn. exact (proj1 (Hok n Hn)).
  - exists 0. cbn [fst snd firstn calls_and_fetches seq map].
    split; [lia |]. split; [| split].
    + rewrite without_rows_app. reflexivity.
    + rewrite progress_calls_app. reflexivity.
    + intros n Hn. discriminate.
Qed.

End ExporterProperties.

(** ** The exporter on the sample installation *)

(** The scenario of the specification: two patients, two rows, count 2. *)
Example export_Ann_and_Bo :
  fst (export_patients Sample.clinic Sample.fromstring Sample.bot
                       ["P0000001"; "P0000002"] []) = Ok 2%Z /\
  rows_written (snd (export_patients Sample.clinic Sample.fromstring Sample.bot
                                     ["P0000001"; "P0000002"] []))
    = [[Some "first_name"; Some "last_name"];
       [Some "Ann"; Some "Lee"];
       [Some "Bo"; Some "Smith"]].
Proof. split; reflexivity. Qed.

(** C1, as stated, fails: the fetch of a patient whose record lacks a
    property of the schema succeeds, yet the export ends with [KeyError],
    returns no count and writes no row for the patient. *)
Lemma export_patients_missing_property :
  fetches Sample.clinic Sample.fromstring Sample.bot
          [schema_request Sample.bot] ["P0000003"] = [Ok Sample.cy] /\
  fst (export_patients Sample.clinic Sample.fromstring Sample.bot ["P0000003"] [])
    = Raise (KeyError "last_name") /\
  rows_written (snd (export_patients Sample.clinic Sample.fromstring Sample.bot
                                     ["P0000003"] []))
    = [[Some "first_name"; Some "last_name"]].
Proof. split; [| split]; reflexivity. Qed.

Lemma export_patients_rows_witness :
  (exists rows,
     fst (export_patients Sample.clinic Sample.fromstring Sample.bot
                          ["P0000001"; "P0000002"] []) = Ok 2%Z /\
     rows_written (snd (export_patients Sample.clinic Sample.fromstring Sample.bot
                                        ["P0000001"; "P0000002"] []))
       = [] ++ header_of Sample.schema :: rows /\
     List.length rows = 2 /\
     Forall2 (is_row ["first_name"; "last_name"]) [Sample.ann; Sample.bo] rows) /\
  (exists rows,
     fst (export_patients Sample.clinic Sample.fromstring Sample.bot
                          ["P0000001"; "P0000009"; "P0000002"] []) = Raise (HTTPError 404) /\
     rows_written (snd (export_patients Sample.clinic Sample.fromstring Sample.bot
                                        ["P0000001"; "P0000009"; "P0000002"] []))
       = [] ++ header_of Sample.schema :: rows /\
     Forall2 (is_row ["first_name"; "last_name"]) [Sample.ann] rows).
Proof.
  split.
  - apply (proj1 (export_patients_rows Sample.clinic Sample.fromstring Sample.bot
                    ["P0000001"; "P0000002"] [] Sample.schema eq_refl)
             [Sample.ann; Sample.bo] eq_refl).
    repeat constructor; discriminate.
  - apply (proj2 (export_patients_rows Sample.clinic Sample.fromstring Sample.bot
                    ["P0000001"; "P0000009"; "P0000002"] [] Sample.schema eq_refl)
             [Sample.ann] (HTTPError 404) [Ok Sample.bo] eq_refl).
    repeat constructor; discriminate.
Defined.

Lemma export_patients_column_order_witness :
  exists bags rows,
    rows_written (snd (export_patients Sample.clinic Sample.fromstring Sample.bot
                                       ["P0000001"; "P0000002"] []))
      = [] ++ header_of Sample.schema :: rows /\
    Forall2 (is_row ["first_name"; "last_name"]) bags rows /\
    map Ok bags
      = firstn (List.length rows)
               (fetches Sample.clinic Sample.fromstring Sample.bot
                        ([] ++ [schema_request Sample.bot]) ["P0000001"; "P0000002"]).
Proof.
  exact (export_patients_column_order Sample.clinic Sample.fromstring Sample.bot
           ["P0000001"; "P0000002"] [] Sample.schema eq_refl).
Defined.

(** C6, as stated, fails: when the first of two fetches fails, the
    callback has been called once, not twice. *)
Lemma export_patients_progress_cut_short :
  List.length ["P0000009"; "P0000001"] = 2 /\
  fst (export_patients Sample.clinic Sample.fromstring Sample.bot
                       ["P0000009"; "P0000001"] []) = Raise (HTTPError 404) /\
  progress_calls (snd (export_patients Sample.clinic Sample.fromstring Sample.bot
                                       ["P0000009"; "P0000001"] []))
    = [0%Z].
Proof. split; [| split]; reflexivity. Qed.

Lemma export_patients_progress_witness :
  progress_calls (snd (export_patients Sample.clinic Sample.fromstring Sample.bot
                                       ["P0000001"; "P0000002"] []))
    = [0%Z; 1%Z] /\
  without_rows (snd (export_patients Sample.clinic Sample.fromstring Sample.bot
                                     ["P0000001"; "P0000002"] []))
    = [Request (schema_request Sample.bot);
       Progress 0; Request (patient_request Sample.bot "P0000001");
       Progress 1; Request (patient_request Sample.bot "P0000002")].
Proof.
  destruct (export_patients_progress Sample.clinic Sample.fromstring Sample.bot
              ["P0000001"; "P0000002"] [])
    as (m & _ & Hlog & Hcalls & Hall).
  rewrite Hcalls, Hlog, (Hall 2%Z eq_refl). split; reflexivity.
Defined.

(** * Further properties of the client *)

(** ** Dictionaries *)

Lemma dict_get_set_same {V : Type} (k : string) (v : V) (d : dict V) :
  dict_get k (dict_set k v d) = Some v.
Proof.
  induction d as [|[k' v'] d IH]; cbn.
  - now rewrite String.eqb_refl.
  - destruct (String.eqb k k') eqn:E; cbn; rewrite ?String.eqb_refl, ?E; auto.
Qed.

Lemma dict_get_set_other {V : Type} (k k0 : string) (v : V) (d : dict V) :
  k0 <> k -> dict_get k0 (dict_set k v d) = dict_get k0 d.
Proof.
  intros Hne. apply String.eqb_neq in Hne.
  induction d as [|[k' v'] d IH]; cbn.
  - now rewrite Hne.
  - destruct (String.eqb k k') eqn:E; cbn.
    + apply String.eqb_eq in E. subst k'. now rewrite Hne.
    + now rewrite IH.
Qed.

Lemma dict_keys_set {V : Type} (k : string) (v : V) (d : dict V) :
  dict_keys (dict_set k v d)
    = if existsb (String.eqb k) (dict_keys d) then dict_keys d else dict_keys d ++ [k].
Proof.
  unfold dict_keys. induction d as [|[k' v'] d IH]; cbn; [reflexivity |].
  destruct (String.eqb k k') eqn:E; cbn.
  - apply String.eqb_eq in E. now subst.
  - rewrite IH. now destruct (existsb (String.eqb k) (map fst d)).
Qed.

Lemma existsb_eqb_In (k : string) (l : list string) :
  existsb (String.eqb k) l = true <-> In k l.
Proof.
  rewrite existsb_exists. split.
  - intros (x & Hx & E). apply String.eqb_eq in E. now subst.
  - intros H. exists k. split; [assumption | apply String.eqb_refl].
Qed.

Lemma dict_set_NoDup {V : Type} (k : string) (v : V) (d : dict V) :
  NoDup (dict_keys d) -> NoDup (dict_keys (dict_set k v d)).
Proof.
  intros Hd. rewrite dict_keys_set.
  destruct (existsb (String.eqb k) (dict_keys d)) eqn:E; [assumption |].
  apply NoDup_app; [assumption | repeat constructor; intros [] | ].
  intros x Hx [<- | []].
  apply existsb_eqb_In in Hx. congruence.
Qed.

(** Setting a key that is not there appends it. *)
Lemma dict_set_fresh {V : Type} (k : string) (v : V) (d : dict V) :
  ~ In k (dict_keys d) -> dict_set k v d = d ++ [(k, v)].
Proof.
  unfold dict_keys. induction d as [|[k' v'] d IH]; cbn; intros Hk; [reflexivity |].
  destruct (String.eqb k k') eqn:E.
  - apply String.eqb_eq in E. subst. tauto.
  - rewrite IH; [reflexivity | tauto].
Qed.

(** ** The last slash of a location *)

Lemma rfind_from_last_index c s :
  forall i last,
    rfind_from c s i last
      = match last_index c s with
        | Some k => (i + Z.of_nat k)%Z
        | None => last
        end.
Proof.
  induction s as [|d s IH]; intros i last; cbn [rfind_from last_index]; [reflexivity |].
  rewrite IH. destruct (last_index c s) as [k|]; [lia |].
  destruct (Ascii.eqb d c); [lia | reflexivity].
Qed.

Lemma last_index_None c s : last_index c s = None <-> PyStr.contains c s = false.
Proof.
  induction s as [|d s IH]; cbn; [tauto |].
  rewrite (Ascii.eqb_sym c d).
  destruct (last_index c s) as [k|]; destruct (Ascii.eqb d c);
    split; intros H; try discriminate; try tauto;
    apply IH in H; discriminate.
Qed.

Lemma after_last_slash_last_index s :
  after_last_slash s
    = match last_index "/" s with
      | Some k => PyStr.slice_from (S k) s
      | None => s
      end.
Proof.
  unfold after_last_slash, rfind. rewrite rfind_from_last_index.
  destruct (last_index "/" s) as [k|]; [| reflexivity].
  replace (Z.to_nat (0 + Z.of_nat k + 1)) with (S k) by lia. reflexivity.
Qed.

Lemma contains_after_last c s k :
  last_index c s = Some k -> PyStr.contains c (PyStr.slice_from (S k) s) = false.
Proof.
  revert k. induction s as [|d s IH]; intros k; cbn [last_index]; [discriminate |].
  destruct (last_index c s) as [k'|] eqn:E.
  - intros [= <-]. cbn [PyStr.slice_from]. now apply IH.
  - destruct (Ascii.eqb d c); [| discriminate].
    intros [= <-]. cbn [PyStr.slice_from]. now apply last_index_None.
Qed.

Lemma last_index_app c p n :
  PyStr.contains c n = false ->
  last_index c (p ++ String c n)%string = Some (String.length p).
Proof.
  intros Hn. induction p as [|d p IH]; cbn.
  - apply last_index_None in Hn. rewrite Hn, Ascii.eqb_refl. reflexivity.
  - now rewrite IH.
Qed.

Lemma slice_from_after p c n :
  PyStr.slice_from (S (String.length p)) (p ++ String c n)%string = n.
Proof.
  induction p as [|d p IH]; cbn; [reflexivity | exact IH].
Qed.

Lemma after_last_slash_no_slash s : PyStr.contains "/" (after_last_slash s) = false.
Proof.
  rewrite after_last_slash_last_index.
  destruct (last_index "/" s) as [k|] eqn:E.
  - now apply contains_after_last.
  - now apply last_index_None.
Qed.

Lemma after_last_slash_app p n :
  PyStr.contains "/" n = false -> after_last_slash (p ++ "/" ++ n)%string = n.
Proof.
  intros Hn. rewrite after_last_slash_last_index.
  change (p ++ "/" ++ n)%string with (p ++ String "/" n)%string.
  rewrite (last_index_app "/" p n Hn). apply slice_from_after.
Qed.

(** ** Splitting and joining *)

Lemma split_plain sep t : PyStr.contains sep t = false -> PyStr.split sep t = [t].
Proof.
  induction t as [|c t IH]; cbn; [reflexivity |].
  rewrite (Ascii.eqb_sym sep c).
  destruct (Ascii.eqb c sep); [discriminate |].
  intros Ht. now rewrite (IH Ht).
Qed.

Lemma split_app_sep sep t rest :
  PyStr.contains sep t = false ->
  PyStr.split sep (t ++ String sep rest)%string = t :: PyStr.split sep rest.
Proof.
  induction t as [|c t IH]; cbn.
  - now rewrite Ascii.eqb_refl.
  - rewrite (Ascii.eqb_sym sep c).
    destruct (Ascii.eqb c sep); [discriminate |].
    intros Ht. now rewrite (IH Ht).
Qed.

Lemma split_join sep parts :
  parts <> [] ->
  Forall (fun part => PyStr.contains sep part = false) parts ->
  PyStr.split sep (join sep parts) = parts.
Proof.
  intros Hne Hall. induction Hall as [|part parts Hpart Hparts IH]; [contradiction |].
  destruct parts as [|part' parts].
  - cbn. now apply split_plain.
  - cbn [join]. rewrite split_app_sep by assumption.
    f_equal. apply IH. discriminate.
Qed.

Lemma fold_dict_set_fresh {V : Type} (items : dict V) :
  forall acc,
    NoDup (dict_keys acc ++ dict_keys items) ->
    fold_left (fun d kv => dict_set (fst kv) (snd kv) d) items acc = acc ++ items.
Proof.
  induction items as [|[k v] items IH]; intros acc Hnd; cbn.
  - now rewrite app_nil_r.
  - cbn in Hnd. rewrite dict_set_fresh.
    + rewrite IH.
      * now rewrite <- app_assoc.
      * unfold dict_keys in *. rewrite map_app, <- app_assoc. exact Hnd.
    + apply NoDup_remove_2 in Hnd. intros Hin. apply Hnd.
      apply in_or_app. now left.
Qed.

Lemma contains_encode_entry e :
  plain_entry e -> PyStr.contains "|" (encode_entry e) = false.
Proof.
  destruct e as [token | key value]; cbn [plain_entry encode_entry].
  - tauto.
  - intros (Hk & _ & Hv & _).
    change (key ++ "=" ++ value)%string with (key ++ String "=" value)%string.
    rewrite contains_app, Hk. cbn. exact Hv.
Qed.

Lemma split_encode_entry e :
  plain_entry e ->
  PyStr.split "=" (encode_entry e)
    = match e with
      | Bare token => [token]
      | Pair key value => [key; value]
      end.
Proof.
  destruct e as [token | key value]; cbn [plain_entry encode_entry].
  - intros (_ & Ht). now apply split_plain.
  - intros (_ & Hk & _ & Hv).
    change (key ++ "=" ++ value)%string with (key ++ String "=" value)%string.
    rewrite split_app_sep by assumption. now rewrite split_plain.
Qed.

(** The [values] attribute of a class property decodes to what it
    encodes: for entries, bare tokens or [key=value] pairs, whose parts
    hold neither [|] nor [=] and whose keys are distinct, [parse_values]
    of the entries joined by [|] is the list of the entries in their
    order, a bare token standing for itself as key and as value.  The
    empty attribute decodes to one entry, the empty token. *)
Theorem parse_values_join (entries : list values_entry) :
  entries <> [] ->
  Forall plain_entry entries ->
  NoDup (map (fun e => fst (entry_item e)) entries) ->
  parse_values (join "|" (map encode_entry entries)) = map entry_item entries /\
  parse_values EmptyString = [(EmptyString, EmptyString)].
Proof.
  intros Hne Hplain Hnd. split; [| reflexivity].
  unfold parse_values. rewrite split_join.
  - rewrite <- (app_nil_l (map entry_item entries)).
    assert (Hnd' : NoDup (dict_keys (@nil (string * string))
                            ++ dict_keys (map entry_item entries))).
    { unfold dict_keys. cbn [map app]. now rewrite map_map. }
    rewrite <- (fold_dict_set_fresh (map entry_item entries) [] Hnd').
    clear Hnd Hnd' Hne. generalize (@nil (string * string)) as acc.
    induction Hplain as [|e entries He _ IH]; intros acc; [reflexivity |].
    cbn [map fold_left]. rewrite (split_encode_entry e He), <- IH.
    destruct e; reflexivity.
  - destruct entries; [contradiction | discriminate].
  - apply Forall_map. eapply Forall_impl; [| exact Hplain].
    intros e He. now apply contains_encode_entry.
Qed.

Lemma parse_values_join_witness :
  parse_values "M=Male|F=Female|unknown"
    = [("M", "Male"); ("F", "Female"); ("unknown", "unknown")].
Proof.
  refine (proj1 (parse_values_join [Pair "M" "Male"; Pair "F" "Female"; Bare "unknown"]
                   _ _ _)).
  - discriminate.
  - repeat constructor.
  - repeat constructor; cbn; intuition discriminate.
Defined.

(** ** Names that [unqualify] does and does not accept *)

Lemma startswith_app_l a b p :
  PyStr.startswith (a ++ b)%string p = true -> PyStr.startswith a p = true.
Proof.
  revert p. induction a as [|c a IH]; intros p; cbn; [reflexivity |].
  destruct p as [|d p]; [discriminate |].
  destruct (Ascii.eqb c d); [apply IH | discriminate].
Qed.

Lemma unqualify_prefixed n ns : unqualify ("xwiki:" ++ ns ++ "." ++ n)%string ns = Some n.
Proof.
  unfold unqualify.
  replace ("xwiki:" ++ ns ++ "." ++ n)%string
    with (("xwiki:" ++ ns ++ ".") ++ n)%string
    by (now rewrite !string_app_assoc).
  rewrite startswith_app.
  replace (String.length "xwiki:" + String.length ns + String.length ".")
    with (String.length ("xwiki:" ++ ns ++ ".")%string)
    by (rewrite !string_length_app; lia).
  now rewrite slice_from_app.
Qed.

(** [unqualify] returns [None] exactly for the names that do not start
    with [xwiki:]; a name [xwiki:<namespace>.<name>] gives [<name>], for
    every name and namespace, and any other name [xwiki:<rest>] gives
    [<rest>]. *)
Theorem unqualify_cases (namespace : string) :
  (forall pagename,
     unqualify pagename namespace = None <-> PyStr.startswith "xwiki:" pagename = false) /\
  (forall name, unqualify ("xwiki:" ++ namespace ++ "." ++ name)%string namespace = Some name) /\
  (forall rest,
     PyStr.startswith (namespace ++ ".") rest = false ->
     unqualify ("xwiki:" ++ rest)%string namespace = Some rest).
Proof.
  split; [| split].
  - intros pagename. unfold unqualify.
    destruct (PyStr.startswith ("xwiki:" ++ namespace ++ ".") pagename) eqn:E.
    + apply startswith_app_l in E. rewrite E. split; discriminate.
    + destruct (PyStr.startswith "xwiki:" pagename); split; congruence.
  - intros name. apply unqualify_prefixed.
  - intros rest Hrest. unfold unqualify.
    replace (PyStr.startswith ("xwiki:" ++ namespace ++ ".") ("xwiki:" ++ rest))
      with (PyStr.startswith (namespace ++ ".") rest) by reflexivity.
    rewrite Hrest. reflexivity.
Qed.

Lemma unqualify_cases_witness :
  unqualify "xwiki:Groups.Admins" "XWiki" = Some "Groups.Admins".
Proof.
  exact (proj2 (proj2 (unqualify_cases "XWiki")) "Groups.Admins" eq_refl).
Defined.

(** ** The form data of [create_object] and [set_object] *)

Lemma property_key_inj k1 k2 : ("property#" ++ k1 = "property#" ++ k2)%string -> k1 = k2.
Proof. cbn. now intros [= ->]. Qed.

Lemma property_data_other (object_obj : dict string) :
  forall data key,
    (forall k, In k (dict_keys object_obj) -> key <> ("property#" ++ k)%string) ->
    dict_get key (property_data object_obj data) = dict_get key data.
Proof.
  unfold property_data.
  induction object_obj as [|[k v] object_obj IH]; intros data key Hkey; [reflexivity |].
  cbn [fold_left fst snd]. rewrite IH.
  - apply dict_get_set_other. apply Hkey. now left.
  - intros k' Hk'. apply Hkey. now right.
Qed.

Lemma property_data_item (object_obj : dict string) :
  forall data key value,
    NoDup (dict_keys object_obj) ->
    In (key, value) object_obj ->
    dict_get ("property#" ++ key)%string (property_data object_obj data) = Some value.
Proof.
  induction object_obj as [|[k v] object_obj IH]; intros data key value Hnd Hin.
  - destruct Hin.
  - cbn in Hnd. inversion Hnd as [|? ? Hk Hrest]; subst.
    destruct Hin as [[= -> ->] | Hin].
    + change (property_data ((key, value) :: object_obj) data)
        with (property_data object_obj (dict_set ("property#" ++ key)%string value data)).
      rewrite property_data_other; [apply dict_get_set_same |].
      intros k' Hk' Heq. apply property_key_inj in Heq. now subst.
    + change (property_data ((k, v) :: object_obj) data)
        with (property_data object_obj (dict_set ("property#" ++ k)%string v data)).
      now apply IH.
Qed.

Lemma property_data_unprefixed (object_obj data : dict string) key :
  PyStr.startswith "property#" key = false ->
  dict_get key (property_data object_obj data) = dict_get key data.
Proof.
  intros Hkey. apply property_data_other.
  intros k _ ->. now rewrite startswith_app in Hkey.
Qed.

(** The form data sent for an object with distinct keys holds, for every
    item [key: value] of the object, the entry [property#key] with that
    value, and leaves every entry whose key does not start with
    [property#], such as [className], as it was. *)
Theorem property_data_lookup (object_obj data : dict string) :
  NoDup (dict_keys object_obj) ->
  (forall key value,
     In (key, value) object_obj ->
     dict_get ("property#" ++ key)%string (property_data object_obj data) = Some value) /\
  (forall key,
     PyStr.startswith "property#" key = false ->
     dict_get key (property_data object_obj data) = dict_get key data).
Proof.
  intros Hnd. split.
  - intros key value Hin. now apply property_data_item.
  - intros key Hkey. now apply property_data_unprefixed.
Qed.

Lemma property_data_lookup_witness :
  dict_get "property#relative_type"
           (property_data [("relative_type", "sibling"); ("relative_of", "P0000002")]
                          [("className", "PhenoTips.RelativeClass")])
    = Some "sibling" /\
  dict_get "className"
           (property_data [("relative_type", "sibling"); ("relative_of", "P0000002")]
                          [("className", "PhenoTips.RelativeClass")])
    = Some "PhenoTips.RelativeClass".
Proof.
  assert (Hnd : NoDup (dict_keys [("relative_type", "sibling"); ("relative_of", "P0000002")])).
  { repeat constructor; cbn; intuition discriminate. }
  destruct (property_data_lookup [("relative_type", "sibling"); ("relative_of", "P0000002")]
              [("className", "PhenoTips.RelativeClass")] Hnd) as [Hitem Hother].
  split.
  - apply Hitem. now left.
  - now rewrite Hother.
Defined.

(** ** Creating a sub-object *)

Section CreateObject.

Variable server : list request -> request -> outcome response.
Variable self : PhenoTipsBot.

(** When the POST of [create_object] is answered with a status that is
    no error and a [Location] header, the call returns the part of the
    location after its last slash and has sent that one request.  What it
    returns holds no slash; it is the object number when the location
    ends in a slash and a number without slashes.  [create_relative] and
    [create_vcf] are this call for their class. *)
Theorem create_object_number (patient_id object_class : string) (object_obj : dict string)
        (w : log) (r : response) (location : string) :
  let post :=
    mkRequest POST (objects_url self patient_id) []
              (property_data object_obj [("className", object_class)])
              (auth self) (ssl_verify self) in
  server (requests_of w) post = Ok r ->
  raise_for_status r = Ok tt ->
  header_get "location" (headers r) = Some location ->
  create_object server self patient_id object_class object_obj w
    = (Ok (after_last_slash location), w ++ [Request post]) /\
  PyStr.contains "/" (after_last_slash location) = false /\
  (forall prefix number,
     location = (prefix ++ "/" ++ number)%string ->
     PyStr.contains "/" number = false ->
     after_last_slash location = number) /\
  create_relative server self patient_id object_obj
    = create_object server self patient_id "PhenoTips.RelativeClass" object_obj /\
  create_vcf server self patient_id object_obj
    = create_object server self patient_id "PhenoTips.VCF" object_obj.
Proof.
  intros post Hr Hok Hloc. split; [| split; [| split; [| split]]].
  - unfold create_object. unfold_monad. fold post.
    rewrite Hr, Hok. unfold header_getitem. rewrite Hloc. reflexivity.
  - apply after_last_slash_no_slash.
  - intros prefix number -> Hnumber. now apply after_last_slash_app.
  - reflexivity.
  - reflexivity.
Qed.

End CreateObject.

(** ** Collaborators and owners *)

Lemma In_dict_set_same {V : Type} (k : string) (v : V) (d : dict V) :
  In (k, v) (dict_set k v d).
Proof.
  induction d as [|[k' v'] d IH]; cbn; [now left |].
  destruct (String.eqb k k'); [now left | now right].
Qed.

Lemma In_dict_set_other {V : Type} (k k0 : string) (v v0 : V) (d : dict V) :
  k <> k0 -> In (k, v) d -> In (k, v) (dict_set k0 v0 d).
Proof.
  intros Hne. induction d as [|[k' v'] d IH]; cbn; [tauto |].
  destruct (String.eqb k0 k') eqn:E.
  - apply String.eqb_eq in E. subst k'.
    intros [[= -> ->] | Hin]; [contradiction | now right].
  - intros [Heq | Hin]; [now left | right; now apply IH].
Qed.

Lemma dict_get_In_keys {V : Type} (k : string) (v : V) (d : dict V) :
  dict_get k d = Some v -> In k (dict_keys d).
Proof.
  unfold dict_keys. induction d as [|[k' v'] d IH]; cbn [dict_get map fst]; [discriminate |].
  destruct (String.eqb k k') eqn:E.
  - apply String.eqb_eq in E. intros _. left. now symmetry.
  - intros H. right. now apply IH.
Qed.

Lemma get_object_run server fromstring self patient_id object_class object_num w :
  get_object server fromstring self patient_id object_class object_num w
    = (match server (requests_of w)
               (mkRequest GET (object_url self patient_id object_class object_num)
                          [] [] (auth self) (ssl_verify self)) with
       | Ok r => object_of_response fromstring r
       | Raise e => Raise e
       end,
       w ++ [Request (mkRequest GET (object_url self patient_id object_class object_num)
                                [] [] (auth self) (ssl_verify self))]).
Proof.
  unfold get_object. unfold_monad. destruct (server _ _); reflexivity.
Qed.

Section Collaborators.

Variable server : list request -> request -> outcome response.
Variable fromstring : string -> outcome element.
Variable self : PhenoTipsBot.
Variable patient_id : string.

(** [create_collaborator] passes [self] twice to [create_object]: on
    every input the call raises [TypeError], and nothing is sent. *)
Theorem create_collaborator_raises_TypeError (collaborator_obj : dict string) (w : log) :
  create_collaborator server self patient_id collaborator_obj w
    = (Raise (TypeError "create_object() takes 4 positional arguments but 5 were given"), w).
Proof. reflexivity. Qed.

(** [set_collaborator] sends one PUT.  For an object with distinct keys
    that names a collaborator, the form data holds the collaborator in
    qualified form and every other item as it was given; an object that
    names none is sent as it is. *)
Theorem set_collaborator_data (collaborator_num : string) (collaborator_obj : dict string)
        (w : log) :
  NoDup (dict_keys collaborator_obj) ->
  exists data,
    snd (set_collaborator server self patient_id collaborator_num collaborator_obj w)
      = w ++ [Request (mkRequest PUT
                         (object_url self patient_id "PhenoTips.CollaboratorClass"
                                     collaborator_num)
                         [] data (auth self) (ssl_verify self))] /\
    (forall collaborator,
       dict_get "collaborator" collaborator_obj = Some collaborator ->
       dict_get "property#collaborator" data = Some (qualify collaborator default_namespace)) /\
    (forall key value,
       In (key, value) collaborator_obj -> key <> "collaborator" ->
       dict_get ("property#" ++ key)%string data = Some value) /\
    (dict_get "collaborator" collaborator_obj = None ->
       data = property_data collaborator_obj []).
Proof.
  intros Hnd. exists (property_data (qualify_collaborator collaborator_obj) []).
  assert (Hnd' : NoDup (dict_keys (qualify_collaborator collaborator_obj))).
  { unfold qualify_collaborator.
    destruct (dict_get "collaborator" collaborator_obj); [now apply dict_set_NoDup | assumption]. }
  split; [| split; [| split]].
  - unfold set_collaborator, set_object. unfold_monad.
    destruct (server _ _) as [r|e]; [destruct (raise_for_status r) |]; reflexivity.
  - intros collaborator Hc.
    apply (property_data_item _ [] "collaborator" _ Hnd').
    unfold qualify_collaborator. rewrite Hc. apply In_dict_set_same.
  - intros key value Hin Hkey. apply (property_data_item _ [] key value Hnd').
    unfold qualify_collaborator.
    destruct (dict_get "collaborator" collaborator_obj); [| assumption].
    now apply In_dict_set_other.
  - intros Hc. unfold qualify_collaborator. now rewrite Hc.
Qed.

(** [get_collaborator] returns the properties of the object with the
    collaborator stripped of its [xwiki:XWiki.] prefix, every other
    property and the order of the properties as fetched; an object
    without a [collaborator] property raises [KeyError]. *)
Theorem get_collaborator_strips (collaborator_num : string) (w : log) (r : response)
        (obj : dict (option string)) :
  server (requests_of w)
         (mkRequest GET (object_url self patient_id "PhenoTips.CollaboratorClass"
                                    collaborator_num)
                    [] [] (auth self) (ssl_verify self)) = Ok r ->
  object_of_response fromstring r = Ok obj ->
  (forall name,
     dict_get "collaborator" obj = Some (Some ("xwiki:XWiki." ++ name)%string) ->
     exists ret_obj,
       fst (get_collaborator server fromstring self patient_id collaborator_num w)
         = Ok ret_obj /\
       dict_get "collaborator" ret_obj = Some (Some name) /\
       (forall key, key <> "collaborator" -> dict_get key ret_obj = dict_get key obj) /\
       dict_keys ret_obj = dict_keys obj) /\
  (dict_get "collaborator" obj = None ->
     fst (get_collaborator server fromstring self patient_id collaborator_num w)
       = Raise (KeyError "collaborator")).
Proof.
  intros Hr Hobj. split.
  - intros name Hc. exists (dict_set "collaborator" (Some name) obj).
    split; [| split; [| split]].
    + unfold get_collaborator. unfold bind at 1. rewrite get_object_run, Hr, Hobj.
      unfold_monad. unfold getitem. rewrite Hc.
      change default_namespace with "XWiki".
      change ("xwiki:XWiki." ++ name)%string with ("xwiki:" ++ "XWiki" ++ "." ++ name)%string.
      rewrite unqualify_prefixed. reflexivity.
    + apply dict_get_set_same.
    + intros key Hkey. now apply dict_get_set_other.
    + rewrite dict_keys_set.
      pose proof (dict_get_In_keys _ _ _ Hc) as Hin.
      apply existsb_eqb_In in Hin. now rewrite Hin.
  - intros Hc. unfold get_collaborator. unfold bind at 1.
    rewrite get_object_run, Hr, Hobj. unfold_monad. unfold getitem. now rewrite Hc.
Qed.

(** [get_owner] returns the owner stripped of its [xwiki:XWiki.] prefix;
    for a stored owner that does not start with [xwiki:], which is what
    [set_owner] writes for a name without a colon, it returns [None]; an
    object without an [owner] property raises [KeyError]. *)
Theorem get_owner_cases (w : log) (r : response) (obj : dict (option string)) :
  server (requests_of w)
         (mkRequest GET (object_url self patient_id "PhenoTips.OwnerClass" "0")
                    [] [] (auth self) (ssl_verify self)) = Ok r ->
  object_of_response fromstring r = Ok obj ->
  (forall name,
     dict_get "owner" obj = Some (Some ("xwiki:XWiki." ++ name)%string) ->
     fst (get_owner server fromstring self patient_id w) = Ok (Some name)) /\
  (forall owner,
     dict_get "owner" obj = Some (Some owner) ->
     PyStr.startswith "xwiki:" owner = false ->
     fst (get_owner server fromstring self patient_id w) = Ok None) /\
  (dict_get "owner" obj = None ->
     fst (get_owner server fromstring self patient_id w) = Raise (KeyError "owner")).
Proof.
  intros Hr Hobj.
  assert (Hrun : fst (get_owner server fromstring self patient_id w)
                 = match dict_get "owner" obj with
                   | Some (Some owner) => Ok (unqualify owner default_namespace)
                   | Some None =>
                       Raise (AttributeError "'NoneType' object has no attribute 'startswith'")
                   | None => Raise (KeyError "owner")
                   end).
  { unfold get_owner. unfold bind at 1. rewrite get_object_run, Hr, Hobj.
    unfold_monad. unfold getitem.
    destruct (dict_get "owner" obj) as [[owner|]|]; reflexivity. }
  rewrite Hrun. split; [| split].
  - intros name ->.
    change ("xwiki:XWiki." ++ name)%string with ("xwiki:" ++ "XWiki" ++ "." ++ name)%string.
    change default_namespace with "XWiki". now rewrite unqualify_prefixed.
  - intros owner -> Hs. f_equal. unfold unqualify.
    destruct (PyStr.startswith ("xwiki:" ++ default_namespace ++ ".") owner) eqn:E.
    + apply startswith_app_l in E. congruence.
    + now rewrite Hs.
  - intros ->. reflexivity.
Qed.

End Collaborators.

(** ** Round trips of names *)

(** [qualify] followed by [unqualify] gives the name back for every
    non-empty name without a colon that does not itself start with the
    namespace and a dot, dotted names included, in every namespace
    without a colon. *)
Theorem unqualify_qualify_dotted (name namespace : string) :
  PyStr.truthy name = true ->
  PyStr.contains ":" name = false ->
  PyStr.contains ":" namespace = false ->
  PyStr.startswith (namespace ++ ".") name = false ->
  unqualify (qualify name namespace) namespace = Some name.
Proof.
  intros Ht Hc Hns Hs.
  destruct (PyStr.contains "." name) eqn:Hd.
  - assert (Hq : qualify name namespace = ("xwiki:" ++ name)%string).
    { unfold qualify. rewrite Ht, Hd. cbn [negb]. now rewrite Hc. }
    rewrite Hq. unfold unqualify.
    replace (PyStr.startswith ("xwiki:" ++ namespace ++ ".") ("xwiki:" ++ name))
      with (PyStr.startswith (namespace ++ ".") name) by reflexivity.
    rewrite Hs. reflexivity.
  - rewrite qualify_bare; [apply unqualify_prefixed | | assumption].
    split; [assumption | split; assumption].
Qed.

Lemma unqualify_qualify_dotted_witness :
  unqualify (qualify "Dr. Lee" "Studies") "Studies" = Some "Dr. Lee".
Proof.
  apply unqualify_qualify_dotted; reflexivity.
Defined.

Section StudyRoundTrip.

Variable server : list request -> request -> outcome response.
Variable fromstring : string -> outcome element.
Variable self : PhenoTipsBot.
Variable patient_id : string.

(** What [set_study] stores is what [get_study] gives back: when the
    binding holds the reference [set_study] sends for a study, a
    non-empty name without a colon that does not start with [Studies.],
    [get_study] returns that study. *)
Theorem get_study_of_set_study (study : string) (w : log) (r : response)
        (root el : element) :
  PyStr.truthy study = true ->
  PyStr.contains ":" study = false ->
  PyStr.startswith "Studies." study = false ->
  server (requests_of w) (study_check self patient_id) = Ok r ->
  status_code r <> 404%Z ->
  raise_for_status r = Ok tt ->
  fromstring (text r) = Ok root ->
  study_reference root = Some el ->
  el_text el = dict_get "property#studyReference" (req_data (study_update self patient_id study)) ->
  fst (get_study server fromstring self patient_id w) = Ok (Some study).
Proof.
  intros Ht Hc Hs Hr Hn Hok Hroot Hel Htext. apply Z.eqb_neq in Hn.
  cbn -[qualify] in Htext. unfold study_reference in Hel.
  unfold get_study. unfold_monad. fold (study_check self patient_id).
  rewrite Hr, Hn, Hok, Hroot, Hel, Htext.
  assert (Hq : PyStr.truthy (qualify study "Studies") = true)
    by (apply qualify_shape; assumption).
  rewrite Hq. cbn [negb fst]. f_equal.
  now apply unqualify_qualify_dotted.
Qed.

(** When the binding is there and no study is given, [set_study] sends
    the DELETE and returns, whatever status the DELETE is answered with:
    the status it checks afterwards is that of the existence check. *)
Theorem set_study_ignores_delete_status (w : log) (r r' : response) :
  server (requests_of w) (study_check self patient_id) = Ok r ->
  status_code r <> 404%Z ->
  raise_for_status r = Ok tt ->
  server (requests_of w ++ [study_check self patient_id]) (study_delete self patient_id)
    = Ok r' ->
  set_study server self patient_id None w
    = (Ok tt, w ++ [Request (study_check self patient_id);
                    Request (study_delete self patient_id)]).
Proof.
  intros Hr Hn Hok Hr'. apply Z.eqb_neq in Hn.
  unfold set_study. unfold_monad. fold (study_check self patient_id).
  rewrite Hr, Hn, Hok. fold (study_delete self patient_id).
  rewrite requests_of_app. cbn [requests_of flat_map app]. rewrite Hr'.
  now rewrite <- app_assoc.
Qed.

End StudyRoundTrip.

(** ** Queries *)

Lemma unqualify_all_prefixed namespace names :
  unqualify_all namespace
                (map (fun name => Some ("xwiki:" ++ namespace ++ "." ++ name)%string) names)
    = Ok (map Some names).
Proof.
  induction names as [|name names IH]; [reflexivity |].
  cbn [map unqualify_all]. now rewrite IH, unqualify_prefixed.
Qed.

Lemma unqualify_all_None namespace before after :
  Forall (fun name => name <> None) before ->
  unqualify_all namespace (before ++ None :: after)
    = Raise (AttributeError "'NoneType' object has no attribute 'startswith'").
Proof.
  induction 1 as [|[name|] before Hname _ IH]; cbn; [reflexivity | | contradiction].
  now rewrite IH.
Qed.

Section Queries.

Variable server : list request -> request -> outcome response.
Variable fromstring : string -> outcome element.
Variable self : PhenoTipsBot.

Lemma list_hql_run query w :
  list_hql server fromstring self query w
    = (try r := server (requests_of w) (query_request self query) in
       try _ := raise_for_status r in
       try root := fromstring (text r) in
       Ok (search_results root),
       w ++ [Request (query_request self query)]).
Proof.
  unfold list_hql. unfold_monad. fold (query_request self query).
  destruct (server _ _) as [r|e]; [| reflexivity].
  destruct (raise_for_status r); [| reflexivity].
  destruct (fromstring (text r)); reflexivity.
Qed.

(** [list] sends one query and returns the patients the server names,
    in the server's order, each stripped of its [xwiki:data.] prefix; a
    search result without text makes it raise [AttributeError]. *)
Theorem list_strips_data_prefix (study owner having_object : option string)
        (w : log) (r : response) (root : element) :
  server (requests_of w) (query_request self (list_query study owner having_object)) = Ok r ->
  raise_for_status r = Ok tt ->
  fromstring (text r) = Ok root ->
  (forall patient_ids,
     search_results root = map (fun id => Some ("xwiki:data." ++ id)%string) patient_ids ->
     list_ server fromstring self study owner having_object w
       = (Ok (map Some patient_ids),
          w ++ [Request (query_request self (list_query study owner having_object))])) /\
  (forall before after,
     search_results root = before ++ None :: after ->
     Forall (fun name => name <> None) before ->
     fst (list_ server fromstring self study owner having_object w)
       = Raise (AttributeError "'NoneType' object has no attribute 'startswith'")).
Proof.
  intros Hr Hok Hroot. split.
  - intros patient_ids Hids. unfold list_. unfold bind at 1.
    rewrite list_hql_run, Hr, Hok, Hroot, Hids. unfold lift.
    change (fun id => Some ("xwiki:data." ++ id)%string)
      with (fun id => Some ("xwiki:" ++ "data" ++ "." ++ id)%string).
    now rewrite unqualify_all_prefixed.
  - intros before after Hids Hbefore. unfold list_. unfold bind at 1.
    rewrite list_hql_run, Hr, Hok, Hroot, Hids. unfold lift. cbn [fst].
    now apply unqualify_all_None.
Qed.

(** [list_pages] sends one query and returns the pages the server names
    in the space, in the server's order, each stripped of the prefix
    [xwiki:<space>.], for every space; [list_users], [list_groups] and
    [list_studies] are this call for their space and class. *)
Theorem list_pages_strips_space_prefix (space : string) (having_object : option string)
        (w : log) (r : response) (root : element) (pages : list string) :
  server (requests_of w) (query_request self (list_pages_query space having_object)) = Ok r ->
  raise_for_status r = Ok tt ->
  fromstring (text r) = Ok root ->
  search_results root
    = map (fun page => Some ("xwiki:" ++ space ++ "." ++ page)%string) pages ->
  list_pages server fromstring self space having_object w
    = (Ok (map Some pages),
       w ++ [Request (query_request self (list_pages_query space having_object))]) /\
  list_users server fromstring self
    = list_pages server fromstring self "XWiki" (Some "XWiki.XWikiUsers") /\
  list_groups server fromstring self
    = list_pages server fromstring self "Groups" (Some "PhenoTips.PhenoTipsGroupClass") /\
  list_studies server fromstring self
    = list_pages server fromstring self "Studies" (Some "PhenoTips.StudyClass").
Proof.
  intros Hr Hok Hroot Hpages. split; [| repeat split].
  unfold list_pages. unfold bind at 1.
  rewrite list_hql_run, Hr, Hok, Hroot, Hpages. unfold lift.
  now rewrite unqualify_all_prefixed.
Qed.

End Queries.

(** The filters of [list]: an empty owner and an empty object class add
    no clause, like [None]; an empty study is a filter all the same, and
    the query differs from the one without a study. *)
Theorem list_query_filters (study owner having_object : option string) :
  list_query study (Some EmptyString) having_object = list_query study None having_object /\
  list_query study owner (Some EmptyString) = list_query study owner None /\
  list_query (Some EmptyString) owner having_object <> list_query None owner having_object.
Proof.
  split; [reflexivity | split; [reflexivity |]].
  unfold list_query.
  destruct (truthy_opt owner), (truthy_opt having_object); cbn; discriminate.
Qed.

(** ** The properties of an object and of a class, in document order *)

Lemma collect_properties_app before after :
  forall acc,
    collect_properties (before ++ after) acc
      = try ret := collect_properties before acc in collect_properties after ret.
Proof.
  induction before as [|prop before IH]; intros acc; cbn [app collect_properties].
  - reflexivity.
  - destruct (find [Child (xwiki "value")] prop); [| reflexivity].
    destruct (getitem (el_attrib prop) "name"); [apply IH | reflexivity].
Qed.

Lemma collect_properties_other props name :
  forall acc ret,
    collect_properties props acc = Ok ret ->
    Forall (fun prop => attrib_name prop <> name) props ->
    dict_get name ret = dict_get name acc.
Proof.
  induction props as [|prop props IH]; intros acc ret; cbn [collect_properties].
  - now intros [= ->].
  - destruct (find [Child (xwiki "value")] prop) as [value|]; [| discriminate].
    unfold getitem, attrib_name.
    intros Hret Hall. inversion Hall as [|? ? Hprop Hprops]; subst.
    unfold attrib_name in Hprop.
    destruct (dict_get "name" (el_attrib prop)) as [n|]; [| discriminate].
    rewrite (IH _ _ Hret Hprops). apply dict_get_set_other. congruence.
Qed.

Lemma collect_properties_distinct props :
  forall acc ret,
    collect_properties props acc = Ok ret ->
    NoDup (dict_keys acc ++ map attrib_name props) ->
    ret = acc ++ map (fun prop => (attrib_name prop, value_text prop)) props.
Proof.
  induction props as [|prop props IH]; intros acc ret; cbn [collect_properties map].
  - intros [= ->] _. now rewrite app_nil_r.
  - unfold value_text at 1, attrib_name at 1 3, getitem.
    destruct (find [Child (xwiki "value")] prop) as [value|]; [| discriminate].
    destruct (dict_get "name" (el_attrib prop)) as [n|]; [| discriminate].
    intros Hret Hnd.
    assert (Hfresh : ~ In n (dict_keys acc)).
    { apply NoDup_remove_2 in Hnd. intros Hin. apply Hnd. apply in_or_app. now left. }
    rewrite (dict_set_fresh _ _ _ Hfresh) in Hret.
    rewrite (IH _ _ Hret).
    + now rewrite <- app_assoc.
    + unfold dict_keys in *. rewrite map_app, <- app_assoc. exact Hnd.
Qed.

Lemma collect_class_properties_keys props :
  forall acc ret,
    collect_class_properties props acc = Ok ret ->
    NoDup (dict_keys acc ++ map attrib_name props) ->
    dict_keys ret = dict_keys acc ++ map attrib_name props.
Proof.
  induction props as [|prop props IH]; intros acc ret; cbn [collect_class_properties map].
  - intros [= ->] _. now rewrite app_nil_r.
  - unfold attrib_name at 1 3, getitem at 1.
    destruct (dict_get "name" (el_attrib prop)) as [n|]; [| discriminate].
    destruct (getitem (el_attrib prop) "type") as [t|]; [| discriminate].
    destruct (optional_value (find (attribute_named "numberType") prop)); [| discriminate].
    destruct (optional_value (find (attribute_named "validationRegExp") prop));
      [| discriminate].
    destruct (optional_value (find (attribute_named "values") prop)); [| discriminate].
    intros Hret Hnd.
    assert (Hfresh : ~ In n (dict_keys acc)).
    { apply NoDup_remove_2 in Hnd. intros Hin. apply Hnd. apply in_or_app. now left. }
    rewrite (dict_set_fresh _ _ _ Hfresh) in Hret.
    rewrite (IH _ _ Hret).
    + unfold dict_keys. rewrite map_app, <- app_assoc. reflexivity.
    + unfold dict_keys in *. rewrite map_app, <- app_assoc. exact Hnd.
Qed.

Section DocumentOrder.

Variable server : list request -> request -> outcome response.
Variable fromstring : string -> outcome element.
Variable self : PhenoTipsBot.

(** What [get_object] returns for a name is the value of the last
    property element of the answer with that name; when the names of the
    property elements are distinct, it returns them with their values in
    document order. *)
Theorem get_object_properties (patient_id object_class object_num : string) (w : log)
        (r : response) (root : element) (obj : dict (option string)) :
  server (requests_of w)
         (mkRequest GET (object_url self patient_id object_class object_num)
                    [] [] (auth self) (ssl_verify self)) = Ok r ->
  fromstring (text r) = Ok root ->
  fst (get_object server fromstring self patient_id object_class object_num w) = Ok obj ->
  (forall before prop after,
     iter (xwiki "property") root = before ++ prop :: after ->
     Forall (fun later => attrib_name later <> attrib_name prop) after ->
     dict_get (attrib_name prop) obj = Some (value_text prop)) /\
  (NoDup (map attrib_name (iter (xwiki "property") root)) ->
   obj = map (fun prop => (attrib_name prop, value_text prop))
             (iter (xwiki "property") root)).
Proof.
  intros Hr Hroot. rewrite get_object_run, Hr. cbn [fst].
  unfold object_of_response. destruct (raise_for_status r); [| discriminate].
  rewrite Hroot. intros Hobj. split.
  - intros before prop after Hprops Hafter.
    rewrite Hprops, collect_properties_app in Hobj.
    destruct (collect_properties before []) as [ret|]; [| discriminate].
    cbn [collect_properties] in Hobj.
    destruct (find [Child (xwiki "value")] prop) as [value|] eqn:Hv; [| discriminate].
    unfold getitem in Hobj.
    destruct (dict_get "name" (el_attrib prop)) as [n|] eqn:Hn; [| discriminate].
    assert (Hname : attrib_name prop = n) by (unfold attrib_name; now rewrite Hn).
    assert (Hvalue : value_text prop = el_text value)
      by (unfold value_text; now rewrite Hv).
    rewrite Hname in *. rewrite Hvalue.
    rewrite (collect_properties_other _ _ _ _ Hobj Hafter).
    apply dict_get_set_same.
  - intros Hnd. now apply (collect_properties_distinct _ [] obj Hobj).
Qed.

(** The schema [list_class_properties] returns has the names of the
    property elements of the answer as its keys, in document order, when
    these names are distinct. *)
Theorem list_class_properties_order (class_name : string) (w : log) (r : response)
        (root : element) (schema : dict descriptor) :
  server (requests_of w)
         (mkRequest GET (base self ++ "/rest/wikis/xwiki/classes/" ++ class_name)%string
                    [] [] (auth self) (ssl_verify self)) = Ok r ->
  fromstring (text r) = Ok root ->
  fst (list_class_properties server fromstring self class_name w) = Ok schema ->
  NoDup (map attrib_name (iter (xwiki "property") root)) ->
  dict_keys schema = map attrib_name (iter (xwiki "property") root).
Proof.
  intros Hr Hroot. unfold list_class_properties. unfold_monad. rewrite Hr.
  destruct (raise_for_status r); [| discriminate].
  rewrite Hroot. cbn [fst]. intros Hschema Hnd.
  now apply (collect_class_properties_keys _ [] schema Hschema).
Qed.

End DocumentOrder.

(** ** Error statuses *)

Lemma raise_for_status_error r :
  (400 <= status_code r < 600)%Z ->
  raise_for_status r = Raise (HTTPError (status_code r)).
Proof.
  intros [Hlo Hhi]. unfold raise_for_status.
  apply Z.leb_le in Hlo. apply Z.ltb_lt in Hhi. now rewrite Hlo, Hhi.
Qed.

Section ErrorStatuses.

Variable server : list request -> request -> outcome response.
Variable fromstring : string -> outcome element.
Variable self : PhenoTipsBot.

(** An answer with a status from 400 to 599, 404 included, makes each of
    these operations raise [HTTPError] with that status after its one
    request; nothing else is sent. *)
Theorem error_status_propagates (w : log) (r : response) :
  (400 <= status_code r < 600)%Z ->
  (forall patient_id object_class object_num q,
     q = mkRequest GET (object_url self patient_id object_class object_num)
                   [] [] (auth self) (ssl_verify self) ->
     server (requests_of w) q = Ok r ->
     get_object server fromstring self patient_id object_class object_num w
       = (Raise (HTTPError (status_code r)), w ++ [Request q])) /\
  (forall patient_id object_class object_num object_obj q,
     q = mkRequest PUT (object_url self patient_id object_class object_num)
                   [] (property_data object_obj []) (auth self) (ssl_verify self) ->
     server (requests_of w) q = Ok r ->
     set_object server self patient_id object_class object_num object_obj w
       = (Raise (HTTPError (status_code r)), w ++ [Request q])) /\
  (forall patient_id object_class object_obj q,
     q = mkRequest POST (objects_url self patient_id) []
                   (property_data object_obj [("className", object_class)])
                   (auth self) (ssl_verify self) ->
     server (requests_of w) q = Ok r ->
     create_object server self patient_id object_class object_obj w
       = (Raise (HTTPError (status_code r)), w ++ [Request q])) /\
  (forall patient_id q,
     q = mkRequest DELETE (base self ++ "/rest/patients/" ++ patient_id)%string
                   [] [] (auth self) (ssl_verify self) ->
     server (requests_of w) q = Ok r ->
     delete server self patient_id w
       = (Raise (HTTPError (status_code r)), w ++ [Request q])) /\
  (forall query,
     server (requests_of w) (query_request self query) = Ok r ->
     list_hql server fromstring self query w
       = (Raise (HTTPError (status_code r)), w ++ [Request (query_request self query)])) /\
  (forall patient_id object_class q,
     q = mkRequest GET (base self ++ "/rest/wikis/xwiki/spaces/data/pages/" ++ patient_id
                          ++ "/objects/" ++ object_class)%string
                   [] [] (auth self) (ssl_verify self) ->
     server (requests_of w) q = Ok r ->
     list_objects server fromstring self patient_id object_class w
       = (Raise (HTTPError (status_code r)), w ++ [Request q])) /\
  (forall class_name q,
     q = mkRequest GET (base self ++ "/rest/wikis/xwiki/classes/" ++ class_name)%string
                   [] [] (auth self) (ssl_verify self) ->
     server (requests_of w) q = Ok r ->
     list_class_properties server fromstring self class_name w
       = (Raise (HTTPError (status_code r)), w ++ [Request q])).
Proof.
  intros Hstatus. pose proof (raise_for_status_error r Hstatus) as Herr.
  repeat split.
  - intros ? ? ? q -> Hr. rewrite get_object_run, Hr.
    unfold object_of_response. now rewrite Herr.
  - intros ? ? ? ? q -> Hr. unfold set_object. unfold_monad. now rewrite Hr, Herr.
  - intros ? ? ? q -> Hr. unfold create_object. unfold_monad. now rewrite Hr, Herr.
  - intros ? q -> Hr. unfold delete. unfold_monad. now rewrite Hr, Herr.
  - intros query Hr. rewrite list_hql_run, Hr, Herr. reflexivity.
  - intros ? ? q -> Hr. unfold list_objects. unfold_monad. now rewrite Hr, Herr.
  - intros ? q -> Hr. unfold list_class_properties. unfold_monad. now rewrite Hr, Herr.
Qed.

End ErrorStatuses.

(** ** Creating a patient *)

Section Create.

Variable server : list request -> request -> outcome response.
Variable self : PhenoTipsBot.
Variable pedigree : Type.
Variable pedigree_truthy : pedigree -> bool.
Variable set_pedigree : string -> pedigree -> M unit.

(** With nothing to set, [create] sends the POST that creates the
    patient and then the GET of the edit page of the new patient, and
    returns the part of the [Location] of the first answer after its last
    slash.  When the POST is answered with an error status, the call
    raises it and the POST is all that was sent. *)
Theorem create_requests (patient_obj : option (dict string)) (study owner : option string)
        (pedigree_obj : option pedigree) (w : log) (r : response) :
  server (requests_of w) (create_request self) = Ok r ->
  (forall location r',
     nothing_to_set pedigree pedigree_truthy patient_obj study owner pedigree_obj ->
     raise_for_status r = Ok tt ->
     header_get "location" (headers r) = Some location ->
     server (requests_of w ++ [create_request self]) (edit_request self (after_last_slash location))
       = Ok r' ->
     raise_for_status r' = Ok tt ->
     create server self pedigree pedigree_truthy set_pedigree
            patient_obj study owner pedigree_obj w
       = (Ok (after_last_slash location),
          w ++ [Request (create_request self);
                Request (edit_request self (after_last_slash location))])) /\
  ((400 <= status_code r < 600)%Z ->
     create server self pedigree pedigree_truthy set_pedigree
            patient_obj study owner pedigree_obj w
       = (Raise (HTTPError (status_code r)), w ++ [Request (create_request self)])).
Proof.
  intros Hr. split.
  - intros location r' (Hobj & Hstudy & Howner & Hped) Hok Hloc Hr' Hok'.
    unfold create. unfold_monad. fold (create_request self).
    rewrite Hr, Hok. unfold header_getitem. rewrite Hloc, Hstudy, Howner.
    fold (edit_request self (after_last_slash location)).
    destruct pedigree_obj as [p|]; [rewrite Hped |]; destruct Hobj as [-> | ->];
      rewrite requests_of_app; cbn [requests_of flat_map app];
      rewrite Hr', Hok', <- app_assoc; reflexivity.
  - intros Hstatus. unfold create. unfold_monad. fold (create_request self).
    now rewrite Hr, (raise_for_status_error r Hstatus).
Qed.

End Create.

(** ** What the exporter sends and how far it got *)

Section ExporterAccounts.

Variable server : list request -> request -> outcome response.
Variable fromstring : string -> outcome element.
Variable bot : PhenoTipsBot.

Local Abbreviation loop := (export_loop server fromstring bot).
Local Abbreviation export := (export_patients server fromstring bot).

Lemma export_loop_accounts prop_names :
  forall patient_ids count n_exported w,
    exists calls rows,
      List.length (progress_calls (snd (loop prop_names patient_ids count n_exported w)))
        = List.length (progress_calls w) + calls /\
      List.length (requests_of (snd (loop prop_names patient_ids count n_exported w)))
        = List.length (requests_of w) + calls /\
      List.length (rows_written (snd (loop prop_names patient_ids count n_exported w)))
        = List.length (rows_written w) + rows /\
      mutations_of (snd (loop prop_names patient_ids count n_exported w)) = mutations_of w /\
      rows <= calls <= rows + 1 /\
      calls <= List.length patient_ids /\
      (forall n, fst (loop prop_names patient_ids count n_exported w) = Ok n ->
                 n = (n_exported + Z.of_nat rows)%Z /\ calls = rows).
Proof.
  induction patient_ids as [|patient_id patient_ids IH]; intros count n_exported w.
  - exists 0, 0. cbn [export_loop]. unfold ret. cbn [fst snd List.length].
    repeat split; try lia;
      match goal with H : Ok _ = Ok _ |- _ => injection H as <- end; lia.
  - rewrite export_loop_step.
    assert (Habort : forall e : exn,
      exists calls rows,
        List.length (progress_calls (snd (@Raise Z e,
           w ++ [Progress count; Request (patient_request bot patient_id)])))
          = List.length (progress_calls w) + calls /\
        List.length (requests_of (snd (@Raise Z e,
           w ++ [Progress count; Request (patient_request bot patient_id)])))
          = List.length (requests_of w) + calls /\
        List.length (rows_written (snd (@Raise Z e,
           w ++ [Progress count; Request (patient_request bot patient_id)])))
          = List.length (rows_written w) + rows /\
        mutations_of (snd (@Raise Z e,
           w ++ [Progress count; Request (patient_request bot patient_id)]))
          = mutations_of w /\
        rows <= calls <= rows + 1 /\
        calls <= List.length (patient_id :: patient_ids) /\
        (forall n, fst (@Raise Z e,
           w ++ [Progress count; Request (patient_request bot patient_id)]) = Ok n ->
                   n = (n_exported + Z.of_nat rows)%Z /\ calls = rows)).
    { intros e. exists 1, 0. cbn [fst snd List.length].
      rewrite progress_calls_app, requests_of_app, rows_written_app, mutations_of_app,
        !length_app.
      cbn. rewrite app_nil_r. repeat split; try lia; discriminate. }
    destruct (fetched server fromstring bot (requests_of w) patient_id) as [patient|e];
      [| apply Habort].
    destruct (build_row patient (dict_keys prop_names) []) as [row|e]; [| apply Habort].
    destruct (IH (count + 1)%Z (n_exported + 1)%Z
                 (w ++ [Progress count; Request (patient_request bot patient_id);
                        WriteRow row]))
      as (calls & rows & Hp & Hq & Hr & Hm & Hle & Hn & Hok).
    exists (S calls), (S rows).
    rewrite Hp, Hq, Hr, Hm.
    rewrite progress_calls_app, requests_of_app, rows_written_app, mutations_of_app,
      !length_app.
    cbn [List.length progress_calls requests_of rows_written mutations_of flat_map app
         filter is_mutation req_method patient_request].
    rewrite app_nil_r. repeat split; try lia;
      match goal with H : fst _ = Ok ?n |- _ => destruct (Hok n H) end; lia.
Qed.

(** [export_patients] only reads: whatever the server answers, none of
    the requests it sends is a POST, a PUT or a DELETE. *)
Theorem export_patients_read_only (patient_ids : list string) (w : log) :
  mutations_of (snd (export patient_ids w)) = mutations_of w.
Proof.
  rewrite export_patients_run.
  destruct (schema_of server fromstring bot (requests_of w)) as [prop_names|e].
  - destruct (export_loop_accounts prop_names patient_ids 0%Z 0%Z
                (w ++ [Request (schema_request bot); WriteRow (header_of prop_names)]))
      as (calls & rows & _ & _ & _ & Hm & _).
    rewrite Hm, mutations_of_app. cbn. apply app_nil_r.
  - cbn [snd]. rewrite mutations_of_app. cbn. apply app_nil_r.
Qed.


End ExporterAccounts.

(** ** The content type header of an identifier lookup *)

Section GetIdHeader.

Variable server : list request -> request -> outcome response.
Variable fromstring : string -> outcome element.
Variable json_loads : string -> outcome json.
Variable self : PhenoTipsBot.
Variable external_id : string.

(** For an answer to [get_id] that is neither a 404 nor an error: what
    follows the first [;] of the content type, a character set say, is
    ignored, for JSON and for XML alike; an answer without a content type
    header raises [KeyError]. *)
Theorem get_id_content_type_header (w : log) (r : response) :
  server (requests_of w) (id_lookup self external_id) = Ok r ->
  status_code r <> 404%Z ->
  raise_for_status r = Ok tt ->
  (forall parameters value id,
     header_get "content-type" (headers r) = Some ("application/json;" ++ parameters)%string ->
     json_loads (text r) = Ok value ->
     subscript value "id" = Ok id ->
     fst (get_id server fromstring json_loads self external_id w) = Ok (IdSingle id)) /\
  (forall parameters root,
     header_get "content-type" (headers r) = Some ("application/xml;" ++ parameters)%string ->
     fromstring (text r) = Ok root ->
     fst (get_id server fromstring json_loads self external_id w)
       = Ok (IdList (map el_text
                       (findall [Child (xwiki "alternatives"); Child (xwiki "patient");
                                 Child (xwiki "id")] root)))) /\
  (header_get "content-type" (headers r) = None ->
     fst (get_id server fromstring json_loads self external_id w)
       = Raise (KeyError "content-type")).
Proof.
  intros Hr Hn Hok. apply Z.eqb_neq in Hn. split; [| split].
  - intros parameters value id Hh Hv Hid.
    unfold get_id. unfold_monad. fold (id_lookup self external_id).
    rewrite Hr, Hn, Hok. unfold header_getitem. rewrite Hh.
    replace (content_type_of ("application/json;" ++ parameters))
      with "application/json" by reflexivity.
    cbn [String.eqb]. rewrite Hv, Hid. reflexivity.
  - intros parameters root Hh Hroot.
    unfold get_id. unfold_monad. fold (id_lookup self external_id).
    rewrite Hr, Hn, Hok. unfold header_getitem. rewrite Hh.
    replace (content_type_of ("application/xml;" ++ parameters))
      with "application/xml" by reflexivity.
    replace (String.eqb "application/xml" "application/json") with false by reflexivity.
    rewrite String.eqb_refl, Hroot. reflexivity.
  - intros Hh. unfold get_id. unfold_monad. fold (id_lookup self external_id).
    rewrite Hr, Hn, Hok. unfold header_getitem. rewrite Hh. reflexivity.
Qed.

End GetIdHeader.

(** ** The further properties on the samples *)

Lemma create_object_number_witness :
  create_relative (Ward.serving "" "http://localhost:8080/rest/wikis/xwiki/spaces/data/pages/P0000001/objects/PhenoTips.RelativeClass/3")
                  Ward.bot "P0000001" Ward.relative []
    = (Ok "3",
       [Request (mkRequest POST (objects_url Ward.bot "P0000001") []
                           [("className", "PhenoTips.RelativeClass");
                            ("property#relative_type", "sibling");
                            ("property#relative_of", "P0000002")]
                           ("Admin", "admin") true)]).
Proof.
  destruct (create_object_number
              (Ward.serving "" "http://localhost:8080/rest/wikis/xwiki/spaces/data/pages/P0000001/objects/PhenoTips.RelativeClass/3")
              Ward.bot "P0000001" "PhenoTips.RelativeClass" Ward.relative []
              (mkResponse 201 [("Location", "http://localhost:8080/rest/wikis/xwiki/spaces/data/pages/P0000001/objects/PhenoTips.RelativeClass/3")] "")
              "http://localhost:8080/rest/wikis/xwiki/spaces/data/pages/P0000001/objects/PhenoTips.RelativeClass/3"
              eq_refl eq_refl eq_refl)
    as (Hrun & _ & Hnumber & Hrelative & _).
  rewrite Hrelative, Hrun.
  rewrite (Hnumber "http://localhost:8080/rest/wikis/xwiki/spaces/data/pages/P0000001/objects/PhenoTips.RelativeClass" "3" eq_refl eq_refl).
  reflexivity.
Defined.

Lemma set_collaborator_data_witness :
  exists data,
    snd (set_collaborator (Ward.serving "" "") Ward.bot "P0000001" "0" Ward.share [])
      = [] ++ [Request (mkRequest PUT
                          (object_url Ward.bot "P0000001" "PhenoTips.CollaboratorClass" "0")
                          [] data (auth Ward.bot) (ssl_verify Ward.bot))] /\
    dict_get "property#collaborator" data = Some "xwiki:XWiki.jdoe" /\
    dict_get "property#access" data = Some "edit".
Proof.
  assert (Hnd : NoDup (dict_keys Ward.share)).
  { repeat constructor; cbn; intuition discriminate. }
  destruct (set_collaborator_data (Ward.serving "" "") Ward.bot "P0000001" "0" Ward.share []
              Hnd) as (data & Hsent & Hc & Hother & _).
  exists data. split; [exact Hsent |]. split.
  - exact (Hc "jdoe" eq_refl).
  - apply (Hother "access" "edit"); [right; now left | discriminate].
Defined.

Lemma get_collaborator_strips_witness :
  exists ret_obj,
    fst (get_collaborator (Ward.serving Ward.collaborator_xml "") Ward.fromstring
                          Ward.bot "P0000001" "0" []) = Ok ret_obj /\
    dict_get "collaborator" ret_obj = Some (Some "jdoe") /\
    (forall key, key <> "collaborator" -> dict_get key ret_obj = dict_get key Ward.collaborator) /\
    dict_keys ret_obj = ["collaborator"; "access"].
Proof.
  exact (proj1 (get_collaborator_strips (Ward.serving Ward.collaborator_xml "")
                  Ward.fromstring Ward.bot "P0000001" "0" []
                  (Sample.answer 200 "application/xml" Ward.collaborator_xml)
                  Ward.collaborator eq_refl eq_refl)
           "jdoe" eq_refl).
Defined.

Lemma get_owner_cases_witness :
  fst (get_owner (Ward.serving Ward.owner_xml "") Ward.fromstring Ward.bot "P0000001" [])
    = Ok (Some "Admin").
Proof.
  exact (proj1 (get_owner_cases (Ward.serving Ward.owner_xml "") Ward.fromstring Ward.bot
                  "P0000001" [] (Sample.answer 200 "application/xml" Ward.owner_xml)
                  [("owner", Some "xwiki:XWiki.Admin")] eq_refl eq_refl)
           "Admin" eq_refl).
Defined.

Lemma get_study_of_set_study_witness :
  fst (get_study (Ward.serving Ward.dotted_binding_xml "") Ward.fromstring Ward.bot
                 "P0000001" [])
    = Ok (Some "Dr. Lee").
Proof.
  exact (get_study_of_set_study (Ward.serving Ward.dotted_binding_xml "") Ward.fromstring
           Ward.bot "P0000001" "Dr. Lee" []
           (Sample.answer 200 "application/xml" Ward.dotted_binding_xml)
           (Sample.object [Sample.property "studyReference" (Some "xwiki:Dr. Lee")])
           (Element (xwiki "value") [] (Some "xwiki:Dr. Lee") [])
           eq_refl eq_refl eq_refl eq_refl
           ltac:(discriminate) eq_refl eq_refl eq_refl eq_refl).
Defined.

Lemma set_study_ignores_delete_status_witness :
  set_study Ward.stubborn Ward.bot "P0000001" None []
    = (Ok tt, [] ++ [Request (study_check Ward.bot "P0000001");
                     Request (study_delete Ward.bot "P0000001")]).
Proof.
  exact (set_study_ignores_delete_status Ward.stubborn Ward.bot "P0000001" []
           (Sample.answer 200 "application/xml" Sample.binding_xml)
           (Sample.answer 500 "text/plain" "")
           eq_refl ltac:(discriminate) eq_refl eq_refl).
Defined.

Lemma list_strips_data_prefix_witness :
  fst (list_ (Ward.serving Ward.patients_xml "") Ward.fromstring Ward.bot
             (Some "Cardiac") (Some "Admin") None [])
    = Ok [Some "P0000001"; Some "P0000002"].
Proof.
  rewrite (proj1 (list_strips_data_prefix (Ward.serving Ward.patients_xml "")
                    Ward.fromstring Ward.bot (Some "Cardiac") (Some "Admin") None []
                    (Sample.answer 200 "application/xml" Ward.patients_xml)
                    (Ward.search ["xwiki:data.P0000001"; "xwiki:data.P0000002"])
                    eq_refl eq_refl eq_refl)
             ["P0000001"; "P0000002"] eq_refl).
  reflexivity.
Defined.

Lemma list_pages_strips_space_prefix_witness :
  fst (list_studies (Ward.serving Ward.studies_xml "") Ward.fromstring Ward.bot [])
    = Ok [Some "Cardiac"].
Proof.
  destruct (list_pages_strips_space_prefix (Ward.serving Ward.studies_xml "")
              Ward.fromstring Ward.bot "Studies" (Some "PhenoTips.StudyClass") []
              (Sample.answer 200 "application/xml" Ward.studies_xml)
              (Ward.search ["xwiki:Studies.Cardiac"]) ["Cardiac"]
              eq_refl eq_refl eq_refl eq_refl)
    as (Hrun & _ & _ & Hstudies).
  rewrite Hstudies, Hrun. reflexivity.
Defined.

Lemma get_object_properties_witness :
  get_object Sample.clinic Sample.fromstring Sample.bot "P0000001" "PhenoTips.PatientClass"
             "0" []
    = (Ok Sample.ann, [Request (patient_request Sample.bot "P0000001")]) /\
  dict_get "last_name" Sample.ann = Some (Some "Lee").
Proof.
  pose proof (get_object_properties Sample.clinic Sample.fromstring Sample.bot
                "P0000001" "PhenoTips.PatientClass" "0" []
                (Sample.answer 200 "application/xml" Sample.ann_xml)
                (Sample.object [Sample.property "first_name" (Some "Ann");
                                Sample.property "last_name" (Some "Lee")])
                Sample.ann eq_refl eq_refl eq_refl) as [Hlast Hall].
  split; [reflexivity |].
  exact (Hlast [Sample.property "first_name" (Some "Ann")]
               (Sample.property "last_name" (Some "Lee")) [] eq_refl (Forall_nil _)).
Defined.

Lemma list_class_properties_order_witness :
  dict_keys Sample.schema = ["first_name"; "last_name"].
Proof.
  refine (list_class_properties_order Sample.clinic Sample.fromstring Sample.bot
            "PhenoTips.PatientClass" []
            (Sample.answer 200 "application/xml" Sample.class_xml)
            Sample.patient_class Sample.schema eq_refl eq_refl eq_refl _).
  repeat constructor; cbn; intuition discriminate.
Defined.

Lemma error_status_propagates_witness :
  get_object (Sample.always Ward.forbidden) Sample.fromstring Sample.bot
             "P0000001" "PhenoTips.PatientClass" "0" []
    = (Raise (HTTPError 403), [] ++ [Request (patient_request Sample.bot "P0000001")]).
Proof.
  refine (proj1 (error_status_propagates (Sample.always Ward.forbidden) Sample.fromstring
                   Sample.bot [] Ward.forbidden _)
            "P0000001" "PhenoTips.PatientClass" "0" _ eq_refl eq_refl).
  cbn. lia.
Defined.

Lemma create_requests_witness :
  create (Ward.serving "" "http://localhost:8080/rest/patients/P0000004") Ward.bot
         unit (fun _ => true) (fun _ _ => ret tt)
         None (Some EmptyString) None None []
    = (Ok "P0000004",
       [Request (create_request Ward.bot); Request (edit_request Ward.bot "P0000004")]).
Proof.
  refine (proj1 (create_requests
                   (Ward.serving "" "http://localhost:8080/rest/patients/P0000004") Ward.bot
                   unit (fun _ => true) (fun _ _ => ret tt)
                   None (Some EmptyString) None None []
                   (mkResponse 201 [("Location", "http://localhost:8080/rest/patients/P0000004")] "")
                   eq_refl)
            "http://localhost:8080/rest/patients/P0000004"
            (Sample.answer 200 "application/xml" "") _ eq_refl eq_refl eq_refl eq_refl).
  repeat split. now left.
Defined.

Lemma get_id_content_type_header_witness :
  fst (get_id (Sample.always (Sample.answer 200 "application/json;charset=UTF-8" Sample.id_json))
              Sample.fromstring Sample.json_loads Sample.bot "EXT1" [])
    = Ok (IdSingle (JString "P0000001")).
Proof.
  refine (proj1 (get_id_content_type_header _ Sample.fromstring Sample.json_loads Sample.bot
                   "EXT1" []
                   (Sample.answer 200 "application/json;charset=UTF-8" Sample.id_json)
                   eq_refl _ eq_refl)
            "charset=UTF-8" (JObject [("id", JString "P0000001")]) _ eq_refl eq_refl eq_refl).
  discriminate.
Defined.

(** * Properties of the command line *)

Lemma rstrip_endswith c s : endswith c (rstrip c s) = false.
Proof.
  induction s as [|d s IH]; [reflexivity |].
  cbn [rstrip]. destruct (rstrip c s) as [|e rest].
  - destruct (Ascii.eqb d c) eqn:E; cbn; [reflexivity | exact E].
  - exact IH.
Qed.

Lemma rstrip_unchanged c s : endswith c s = false -> rstrip c s = s.
Proof.
  induction s as [|d s IH]; [reflexivity |].
  destruct s as [|e s].
  - cbn. intros ->. reflexivity.
  - intros Hs.
    change (endswith c (String d (String e s))) with (endswith c (String e s)) in Hs.
    change (rstrip c (String d (String e s)))
      with (match rstrip c (String e s) with
            | EmptyString => if Ascii.eqb d c then EmptyString else String d EmptyString
            | String e' rest => String d (String e' rest)
            end).
    now rewrite (IH Hs).
Qed.

(** The base URL the exporter works with never ends in a slash; a URL
    that has its scheme and no slash at the end is taken as it is. *)
Theorem normalize_base_url_slash (base_url : string) :
  endswith "/" (normalize_base_url base_url) = false /\
  (PyStr.startswith "http://" base_url || PyStr.startswith "https://" base_url = true ->
   endswith "/" base_url = false ->
   normalize_base_url base_url = base_url).
Proof.
  split.
  - apply rstrip_endswith.
  - intros Hscheme Hslash. unfold normalize_base_url.
    apply orb_true_iff in Hscheme.
    replace (negb (PyStr.startswith "http://" base_url)
             && negb (PyStr.startswith "https://" base_url)) with false
      by (destruct Hscheme as [-> | ->]; cbn; now rewrite ?andb_false_r).
    now apply rstrip_unchanged.
Qed.

Lemma normalize_base_url_slash_witness :
  normalize_base_url "https://phenotips.example.org" = "https://phenotips.example.org".
Proof.
  apply (proj2 (normalize_base_url_slash "https://phenotips.example.org")); reflexivity.
Defined.

Lemma ask_given value prompt default t :
  truthy_opt value = true -> ask value prompt default t = (Read (text_of value), t).
Proof.
  intros Hv. unfold ask, tbind, tret. rewrite Hv. cbn [negb].
  destruct value as [v|]; [| discriminate]. cbn in *. now rewrite Hv.
Qed.



(** ** The options *)

Lemma fold_assign_other (name : string) (get : options -> option string) :
  (forall o other value, other <> name -> get (assign_option o (other, value)) = get o) ->
  forall optlist o,
    Forall (fun option => fst option <> name) optlist ->
    get (fold_left assign_option optlist o) = get o.
Proof.
  intros Hother. induction optlist as [|[n v] optlist IH]; intros o Hall; [reflexivity |].
  inversion Hall as [|? ? Hn Hrest]; subst. cbn [fold_left].
  rewrite (IH _ Hrest). now apply Hother.
Qed.

Ltac assign_other :=
  intros o other value Hne; unfold assign_option;
  repeat match goal with
         | |- context [String.eqb other ?s] => destruct (String.eqb_spec other s)
         end;
  subst; try reflexivity; try congruence.

Lemma opt_study_other o other value :
  other <> "--study" -> opt_study (assign_option o (other, value)) = opt_study o.
Proof. revert o other value. assign_other. Qed.

Lemma opt_owner_other o other value :
  other <> "--owner" -> opt_owner (assign_option o (other, value)) = opt_owner o.
Proof. revert o other value. assign_other. Qed.

Lemma opt_base_url_other o other value :
  other <> "--base-url" -> opt_base_url (assign_option o (other, value)) = opt_base_url o.
Proof. revert o other value. assign_other. Qed.

Lemma opt_username_other o other value :
  other <> "--username" -> opt_username (assign_option o (other, value)) = opt_username o.
Proof. revert o other value. assign_other. Qed.

Lemma opt_password_other o other value :
  other <> "--password" -> opt_password (assign_option o (other, value)) = opt_password o.
Proof. revert o other value. assign_other. Qed.


